(** * WhatsApp trivia bot: answer validation and round control

    A shallow embedding of [trivia_bot.py]: the text normalisation used for
    answer matching, the message callback [check_answer] with the shared
    per-question state it guards, and the timeline of [run_question].

    Conventions of the embedding.
    - The message handler and the round controller are embedded over
      texts of 7-bit ASCII characters ([string]): there, case mapping and
      the regular-expression classes [\w] and [\s] are those of CPython
      on ASCII, and a byte above 127 is outside the model.  [normalize] is
      also embedded over arbitrary characters, in [Str], with what it
      takes from the Unicode database as parameters; the ASCII functions
      are the instance [ascii_tables] of these.
    - Python values that reach the code from the messaging library are
      JSON-like: [None], booleans, integers, strings, lists and
      dictionaries with string keys (floats are not modelled).
    - The bot object is a record; every method takes the record and returns
      the updated one.  Code that can raise returns a [Res]. *)

From Stdlib Require Import ZArith Ascii String List Bool Lia.
From stdpp Require Import base decidable list strings gmap pretty sorting.

Local Open Scope Z_scope.

(** ** Configuration constants *)

Definition QUESTION_DURATION : Z := 15.
Definition REP_DELAY : Z := 10.
Definition NEXT_DELAY : Z := 5.

(** ** Characters *)

Module Char.

Definition code (c : ascii) : N := N_of_ascii c.

Definition between (lo hi : N) (c : ascii) : bool :=
  ((lo <=? code c) && (code c <=? hi))%N.

Definition is_upper : ascii -> bool := between 65 90.
Definition is_lower : ascii -> bool := between 97 122.
Definition is_digit : ascii -> bool := between 48 57.
Definition is_underscore (c : ascii) : bool := (code c =? 95)%N.

(** [str.isalnum] on ASCII. *)
Definition is_alnum (c : ascii) : bool :=
  is_upper c || is_lower c || is_digit c.

(** The class [\w]: alphanumeric characters and the underscore. *)
Definition is_word (c : ascii) : bool := is_alnum c || is_underscore c.

(** The class [\s], which is also what [str.strip] removes: tab, line
    feed, vertical tab, form feed, carriage return, the four separators
    0x1c-0x1f and the space. *)
Definition is_space (c : ascii) : bool :=
  between 9 13 c || between 28 31 c || (code c =? 32)%N.

(** [str.lower] on one character. *)
Definition lower (c : ascii) : ascii :=
  if is_upper c then ascii_of_N (code c + 32) else c.

Definition space : ascii := ascii_of_N 32.
Definition squote : ascii := ascii_of_N 39.
Definition dquote : ascii := ascii_of_N 34.
Definition backslash : ascii := ascii_of_N 92.

End Char.

(** ** Text operations on character lists *)

Module Text.

Definition lower (l : list ascii) : list ascii := map Char.lower l.

(** [re.sub(r"[^\w\s]", "", l)] *)
Definition remove_non_word (l : list ascii) : list ascii :=
  List.filter (fun c => Char.is_word c || Char.is_space c) l.

(** [re.sub(r"\s+", " ", l)]: a left-to-right scan; [in_run] tells that
    the previous character belonged to the whitespace run being
    replaced. *)
Fixpoint sub_spaces (in_run : bool) (l : list ascii) : list ascii :=
  match l with
  | [] => []
  | c :: l' =>
      if Char.is_space c
      then if in_run then sub_spaces true l'
           else Char.space :: sub_spaces true l'
      else c :: sub_spaces false l'
  end.

Definition collapse_spaces : list ascii -> list ascii := sub_spaces false.

Fixpoint lstrip (l : list ascii) : list ascii :=
  match l with
  | [] => []
  | c :: l' => if Char.is_space c then lstrip l' else l
  end.

Definition is_nil (l : list ascii) : bool :=
  match l with [] => true | _ => false end.

Fixpoint rstrip (l : list ascii) : list ascii :=
  match l with
  | [] => []
  | c :: l' =>
      let r := rstrip l' in
      if Char.is_space c && is_nil r then [] else c :: r
  end.

(** [str.strip()] *)
Definition strip (l : list ascii) : list ascii := rstrip (lstrip l).

(** The body of [normalize] on a string's characters. *)
Definition normalize_chars (l : list ascii) : list ascii :=
  strip (collapse_spaces (remove_non_word (lower l))).

End Text.

Definition str_lower (s : string) : string :=
  string_of_list_ascii (Text.lower (list_ascii_of_string s)).

Definition str_strip (s : string) : string :=
  string_of_list_ascii (Text.strip (list_ascii_of_string s)).

(** ** Python values and exceptions *)

#[local] Set Warnings "-register-all".

Inductive PyVal : Type :=
| VNone
| VBool (b : bool)
| VInt (z : Z)
| VStr (s : string)
| VList (l : list PyVal)
| VDict (d : list (string * PyVal)).

Inductive Exn : Type :=
| AttributeError
| TypeError
| GatewayError.

Inductive Res (A : Type) : Type :=
| Ret (a : A)
| Raise (e : Exn).

Arguments Ret {A} a.
Arguments Raise {A} e.

Definition res_bind {A B : Type} (r : Res A) (k : A -> Res B) : Res B :=
  match r with
  | Ret a => k a
  | Raise e => Raise e
  end.

Declare Scope res_scope.
Delimit Scope res_scope with res.
Notation "x <- r ;; k" := (res_bind r (fun x => k))
  (at level 100, r at next level, right associativity) : res_scope.

Module Py.

(** [bool(v)] *)
Definition truthy (v : PyVal) : bool :=
  match v with
  | VNone => false
  | VBool b => b
  | VInt z => negb (z =? 0)
  | VStr s => negb (String.eqb s EmptyString)
  | VList l => match l with [] => false | _ => true end
  | VDict d => match d with [] => false | _ => true end
  end.

Fixpoint lookup (k : string) (d : list (string * PyVal)) : option PyVal :=
  match d with
  | [] => None
  | (k', v) :: d' => if String.eqb k k' then Some v else lookup k d'
  end.

(** [d.get(k, default)] on a dictionary's items. *)
Definition item (d : list (string * PyVal)) (k : string) (default : PyVal)
  : PyVal :=
  match lookup k d with
  | Some x => x
  | None => default
  end.

(** [v.get(k, default)]: only dictionaries have a [get] attribute. *)
Definition get (v : PyVal) (k : string) (default : PyVal) : Res PyVal :=
  match v with
  | VDict d => Ret (item d k default)
  | _ => Raise AttributeError
  end.

(** [v == s] for a string [s]: only an equal string compares equal. *)
Definition eq_str (v : PyVal) (s : string) : bool :=
  match v with
  | VStr s' => String.eqb s' s
  | _ => false
  end.

(** The integer an operand of [<], [>] or [-] stands for, against an
    integer on the other side: integers and booleans are numbers, every
    other value raises [TypeError]. *)
Definition as_int (v : PyVal) : Res Z :=
  match v with
  | VInt z => Ret z
  | VBool b => Ret (if b then 1 else 0)
  | _ => Raise TypeError
  end.

Definition hex_digit (n : N) : ascii :=
  ascii_of_N (if (n <? 10)%N then 48 + n else 87 + n).

Definition repr_char (quote c : ascii) : list ascii :=
  let n := Char.code c in
  if (n =? 92)%N then [Char.backslash; Char.backslash]
  else if Ascii.eqb c quote then [Char.backslash; c]
  else if (n =? 9)%N then [Char.backslash; "t"%char]
  else if (n =? 10)%N then [Char.backslash; "n"%char]
  else if (n =? 13)%N then [Char.backslash; "r"%char]
  else if (n <? 32)%N || (n =? 127)%N
       then [Char.backslash; "x"%char; hex_digit (n / 16); hex_digit (n mod 16)]
  else [c].

Definition has_char (c : ascii) (l : list ascii) : bool :=
  existsb (Ascii.eqb c) l.

(** [repr(s)] for a string: single quotes unless the text has a single
    quote and no double quote. *)
Definition repr_str (s : string) : string :=
  let l := list_ascii_of_string s in
  let quote :=
    if has_char Char.squote l && negb (has_char Char.dquote l)
    then Char.dquote else Char.squote in
  string_of_list_ascii
    (quote :: flat_map (repr_char quote) l ++ [quote]).

Definition comma_sep (items : list string) : string :=
  String.concat ", " items.

Fixpoint repr (v : PyVal) : string :=
  match v with
  | VNone => "None"
  | VBool b => if b then "True" else "False"
  | VInt z => pretty z
  | VStr s => repr_str s
  | VList l => "[" +:+ comma_sep (map repr l) +:+ "]"
  | VDict d =>
      "{" +:+ comma_sep
                (map (fun kv => repr_str (fst kv) +:+ ": " +:+ repr (snd kv)) d)
          +:+ "}"
  end.

(** [str(v)] *)
Definition str (v : PyVal) : string :=
  match v with
  | VStr s => s
  | _ => repr v
  end.

End Py.

(** ** [normalize] *)

Definition normalize (text : PyVal) : string :=
  match text with
  | VStr s =>
      string_of_list_ascii (Text.normalize_chars (list_ascii_of_string s))
  | _ => EmptyString
  end.

(** ** The bot's state *)

(** One element of [correct_respondents]. *)
Record Respondent : Type := {
  user_id : string;
  name : PyVal;
  timestamp : Z;
  response_time : Z
}.

(** One element of [leaderboard_data]. *)
Record Entry : Type := {
  question_text : option string;
  winners : list Respondent
}.

(** The attributes of [AsyncTriviaGameMaster] that the game logic reads and
    writes.  [None] is the absent case of the optional attributes. *)
Record Bot : Type := {
  group_id : string;
  correct_answers : gset string;
  correct_respondents : list Respondent;
  seen_users : gset string;
  current_question_msg_id : PyVal;
  current_question_text : option string;
  first_correct_message_id : PyVal;
  question_timestamp : option Z;
  cutoff_timestamp : option Z;
  leaderboard_data : list Entry
}.

(** The state [__init__] leaves behind. *)
Definition init (group : string) : Bot := {|
  group_id := group;
  correct_answers := ∅;
  correct_respondents := [];
  seen_users := ∅;
  current_question_msg_id := VNone;
  current_question_text := None;
  first_correct_message_id := VNone;
  question_timestamp := None;
  cutoff_timestamp := None;
  leaderboard_data := []
|}.

(** What [print] writes from [check_answer]. *)
Inductive LogLine : Type :=
| LogNoTimestamp
| LogLate (who : PyVal) (body : string)
| LogCorrect (who : PyVal) (body : string) (time_diff : Z)
| LogError (e : Exn).

(** ** The message handler *)

(** Lines 365-367: the sender's id and display name, with their defaults. *)
Definition sender_of (message : PyVal) : Res (string * PyVal) :=
  (sender_info <- Py.get message "sender" (VDict []) ;;
   sender_key <- Py.get sender_info "id" sender_info ;;
   sender_name <- Py.get sender_info "pushname" (VStr "Someone") ;;
   Ret (Py.str sender_key, sender_name))%res.

(** Lines 378-391: keep the first correct message's id, mark the sender as
    seen and append the respondent. *)
Definition record_answer (self : Bot) (msg_id : PyVal) (sender_id : string)
    (sender_name : PyVal) (msg_timestamp time_diff : Z) : Bot := {|
  group_id := group_id self;
  correct_answers := correct_answers self;
  correct_respondents :=
    correct_respondents self ++
    [{| user_id := sender_id; name := sender_name;
        timestamp := msg_timestamp; response_time := time_diff |}];
  seen_users := {[sender_id]} ∪ seen_users self;
  current_question_msg_id := current_question_msg_id self;
  current_question_text := current_question_text self;
  first_correct_message_id :=
    if negb (Py.truthy (first_correct_message_id self))
    then msg_id else first_correct_message_id self;
  question_timestamp := question_timestamp self;
  cutoff_timestamp := cutoff_timestamp self;
  leaderboard_data := leaderboard_data self
|}.

(** The statements of [check_answer] inside its [try].  Every statement
    that can raise comes before the first assignment to an attribute, so
    a raise leaves the bot as it was.  The two log lines that format a
    time are taken to print. *)
Definition check_answer_body (self : Bot) (message : PyVal)
  : Res (Bot * list LogLine) :=
  (if negb (Py.truthy message) then Ret (self, []) else
   from_me <- Py.get message "fromMe" VNone ;;
   if Py.truthy from_me then Ret (self, []) else
   is_group <- Py.get message "isGroupMsg" VNone ;;
   if negb (Py.truthy is_group) then Ret (self, []) else
   from <- Py.get message "from" VNone ;;
   if negb (Py.eq_str from (group_id self)) then Ret (self, []) else
   raw_body <- Py.get message "body" VNone ;;
   let body := normalize raw_body in
   if String.eqb body EmptyString then Ret (self, []) else
   msg_timestamp <- Py.get message "t" VNone ;;
   match msg_timestamp with
   | VNone => Ret (self, [LogNoTimestamp])
   | _ =>
     match question_timestamp self, cutoff_timestamp self with
     | Some opened, Some cutoff =>
       t <- Py.as_int msg_timestamp ;;
       if t <? opened then Ret (self, []) else
       if t >? cutoff then
         sender_info <- Py.get message "sender" (VDict []) ;;
         who <- Py.get sender_info "pushname" (VStr "Someone") ;;
         Ret (self, [LogLate who body])
       else
       if negb (bool_decide (body ∈ correct_answers self)) then Ret (self, []) else
       sender <- sender_of message ;;
       let sender_id := fst sender in
       let sender_name := snd sender in
       if bool_decide (sender_id ∈ seen_users self) then Ret (self, []) else
       if (5 <=? length (correct_respondents self))%nat then Ret (self, []) else
       msg_id <- Py.get message "id" VNone ;;
       let time_diff := t - opened in
       Ret (record_answer self msg_id sender_id sender_name t time_diff,
            [LogCorrect sender_name body time_diff])
     | _, _ => Ret (self, [])
     end
   end)%res.

(** [check_answer]: the [except Exception] clause logs and returns. *)
Definition check_answer (self : Bot) (message : PyVal) : Bot * list LogLine :=
  match check_answer_body self message with
  | Ret r => r
  | Raise e => (self, [LogError e])
  end.

(** The bot after one call of the callback. *)
Definition check_state (self : Bot) (message : PyVal) : Bot :=
  fst (check_answer self message).

(** The bot after the callback ran on each message of a batch, in order. *)
Definition deliver (messages : list PyVal) (self : Bot) : Bot :=
  fold_left check_state messages self.

(** ** The messaging client, seen from the round controller *)

(** What [client.sendText] returns: [msg.get("id")] and [msg.get("t")]. *)
Record Ack : Type := {
  ack_id : PyVal;
  ack_t : option Z
}.

(** A call of [client.sendText] or [client.reply] returns or raises. *)
Inductive Sent : Type :=
| Delivered (msg : Ack)
| SendFailed.

(** The calls the controller makes, with what they carry. *)
Inductive Call : Type :=
| SendQuestion (question_number : Z) (question : string)
| SendStop
| ReplyRep (quoted : PyVal)
| SendRep (answers : gset string)
| SendNext.

(** Everything outside the controller during one [run_question]: how each
    of its calls to the client ends, the local clock, and the inbound
    messages that the callback thread handles while the controller is
    between two of its own critical sections. *)
Record RoundIO : Type := {
  io_question : Sent;
  io_clock : Z;
  io_setup : list PyVal;
  io_collect : list PyVal;
  io_stop : Sent;
  io_grace : list PyVal;
  io_rep : Sent;
  io_reveal : list PyVal;
  io_advance : list PyVal;
  io_next : Sent
}.

(** ** Controller code: state, calls made, and a result or an exception *)

Definition M (A : Type) : Type := Bot -> Bot * list Call * Res A.

Definition m_ret {A : Type} (a : A) : M A := fun self => (self, [], Ret a).

Definition m_bind {A B : Type} (m : M A) (k : A -> M B) : M B :=
  fun self =>
    match m self with
    | (self1, out1, Ret a) =>
        match k a self1 with
        | (self2, out2, r) => (self2, out1 ++ out2, r)
        end
    | (self1, out1, Raise e) => (self1, out1, Raise e)
    end.

Declare Scope m_scope.
Delimit Scope m_scope with M.
Notation "x <- m ;; k" := (m_bind m (fun x => k))
  (at level 100, m at next level, right associativity) : m_scope.
Notation "m ;; k" := (m_bind m (fun _ => k))
  (at level 100, right associativity) : m_scope.

(** A [with self.lock:] block that only assigns attributes. *)
Definition locked (f : Bot -> Bot) : M unit :=
  fun self => (f self, [], Ret tt).

(** A [with self.lock:] block that only reads. *)
Definition read {A : Type} (f : Bot -> A) : M A :=
  fun self => (self, [], Ret (f self)).

(** A call to the client. *)
Definition send (call : Call) (outcome : Sent) : M Ack :=
  fun self =>
    match outcome with
    | Delivered msg => (self, [call], Ret msg)
    | SendFailed => (self, [call], Raise GatewayError)
    end.

(** The callback thread handles [arrivals] while the controller waits. *)
Definition sleep (arrivals : list PyVal) : M unit :=
  fun self => (deliver arrivals self, [], Ret tt).

(** Lines 174-180. *)
Definition reset_question (answers : list string) (self : Bot) : Bot := {|
  group_id := group_id self;
  correct_answers := list_to_set (map (fun a => str_strip (str_lower a)) answers);
  correct_respondents := [];
  seen_users := ∅;
  current_question_msg_id := current_question_msg_id self;
  current_question_text := current_question_text self;
  first_correct_message_id := VNone;
  question_timestamp := None;
  cutoff_timestamp := None;
  leaderboard_data := leaderboard_data self
|}.

(** Lines 194-198. *)
Definition store_question (msg : Ack) (question : string) (msg_timestamp : Z)
    (self : Bot) : Bot := {|
  group_id := group_id self;
  correct_answers := correct_answers self;
  correct_respondents := correct_respondents self;
  seen_users := seen_users self;
  current_question_msg_id := ack_id msg;
  current_question_text := Some question;
  first_correct_message_id := first_correct_message_id self;
  question_timestamp := Some msg_timestamp;
  cutoff_timestamp := Some (msg_timestamp + QUESTION_DURATION);
  leaderboard_data := leaderboard_data self
|}.

(** The [leaderboard_data.append] of lines 228-233 and 275-280. *)
Definition record_round (self : Bot) : Bot := {|
  group_id := group_id self;
  correct_answers := correct_answers self;
  correct_respondents := correct_respondents self;
  seen_users := seen_users self;
  current_question_msg_id := current_question_msg_id self;
  current_question_text := current_question_text self;
  first_correct_message_id := first_correct_message_id self;
  question_timestamp := question_timestamp self;
  cutoff_timestamp := cutoff_timestamp self;
  leaderboard_data :=
    leaderboard_data self ++
    [{| question_text := current_question_text self;
        winners := correct_respondents self |}]
|}.

(** Lines 283-290. *)
Definition clear_question (self : Bot) : Bot := {|
  group_id := group_id self;
  correct_answers := ∅;
  correct_respondents := [];
  seen_users := ∅;
  current_question_msg_id := VNone;
  current_question_text := None;
  first_correct_message_id := VNone;
  question_timestamp := None;
  cutoff_timestamp := None;
  leaderboard_data := leaderboard_data self
|}.

Definition send_stop (io : RoundIO) : M unit :=
  (send SendStop (io_stop io) ;; m_ret tt)%M.

Definition send_rep (io : RoundIO) : M unit :=
  (snapshot <- read (fun self =>
       (first_correct_message_id self, correct_answers self)) ;;
   let first_msg_id := fst snapshot in
   let answers_copy := snd snapshot in
   if Py.truthy first_msg_id
   then send (ReplyRep first_msg_id) (io_rep io) ;; m_ret tt
   else send (SendRep answers_copy) (io_rep io) ;; m_ret tt)%M.

Definition send_next (io : RoundIO) : M unit :=
  (send SendNext (io_next io) ;;
   locked (fun self => clear_question (record_round self)))%M.

(** [run_question].  The waits are [QUESTION_DURATION], then half a second
    and [REP_DELAY], then [NEXT_DELAY]; [io_setup] and [io_reveal] are the
    messages handled while the controller is inside a client call. *)
Definition run_question (io : RoundIO) (question : string)
    (answers : list string) (is_last_question : bool) (question_number : Z)
  : M unit :=
  (locked (reset_question answers) ;;
   sleep (io_setup io) ;;
   msg <- send (SendQuestion question_number question) (io_question io) ;;
   let msg_timestamp :=
     match ack_t msg with Some t => t | None => io_clock io end in
   locked (store_question msg question msg_timestamp) ;;
   sleep (io_collect io) ;;
   send_stop io ;;
   sleep (io_grace io) ;;
   send_rep io ;;
   sleep (io_reveal io) ;;
   if negb is_last_question
   then sleep (io_advance io) ;; send_next io
   else locked record_round)%M.

(** The loop of [main] over the loaded questions ([main] returns before
    it connects when there is none). *)
Fixpoint run_questions (total i : Z)
    (rounds : list (string * list string * RoundIO)) : M unit :=
  match rounds with
  | [] => m_ret tt
  | (question, answers, io) :: rest =>
      (run_question io question answers (i =? total) i ;;
       run_questions total (i + 1) rest)%M
  end.

Definition main (group : string)
    (rounds : list (string * list string * RoundIO))
  : Bot * list Call * Res unit :=
  run_questions (Z.of_nat (length rounds)) 1 rounds (init group).

(** ** Loading the accepted answers of a question *)

(** The pieces of [l] between the characters that satisfy [is_sep]. *)
Fixpoint split_where (is_sep : ascii -> bool) (l : list ascii)
  : list (list ascii) :=
  match l with
  | [] => [[]]
  | c :: l' =>
      if is_sep c then [] :: split_where is_sep l'
      else match split_where is_sep l' with
           | w :: ws => (c :: w) :: ws
           | [] => [[c]]
           end
  end.

(** [field.split(sep)] on characters. *)
Definition split_on (sep : ascii) : list ascii -> list (list ascii) :=
  split_where (fun c => Ascii.eqb c sep).

(** The set comprehension of [load_questions_from_csv], lines 67-69. *)
Definition load_answers (field : string) : gset string :=
  list_to_set
    (map (fun ans => string_of_list_ascii (Text.strip (Text.lower ans)))
       (List.filter (fun ans => negb (Text.is_nil (Text.strip ans)))
          (split_on "|"%char (list_ascii_of_string field)))).

(** ** Vocabulary of the statements *)

(** *** Shapes of normalised text *)

Module Shape.

(** No whitespace other than single spaces; [after_space] tells that the
    text follows a space. *)
Fixpoint collapsed (after_space : bool) (l : list ascii) : bool :=
  match l with
  | [] => true
  | c :: l' =>
      if Char.is_space c
      then Ascii.eqb c Char.space && negb after_space && collapsed true l'
      else collapsed false l'
  end.

Definition starts_clean (l : list ascii) : bool :=
  match l with
  | [] => true
  | c :: _ => negb (Char.is_space c)
  end.

(** A character that [normalize] can leave in its result. *)
Definition clean_char (c : ascii) : bool :=
  Ascii.eqb c Char.space || (Char.is_word c && negb (Char.is_upper c)).

End Shape.

(** A text written with word characters and single spaces only. *)
Definition plain (s : string) : Prop :=
  Forall (fun c => Char.is_word c || Ascii.eqb c Char.space = true)
    (list_ascii_of_string s)
  /\ Shape.collapsed false (list_ascii_of_string s) = true.

(** The reading of normalisation that removes what is neither alphanumeric
    nor whitespace: every character left is one or the other. *)
Definition only_alnum_or_space (s : string) : Prop :=
  Forall (fun c => Char.is_alnum c || Char.is_space c = true)
    (list_ascii_of_string s).

(** *** Outcomes of one evaluation *)

(** The message became a winner: one respondent was appended. *)
Definition accepted (self : Bot) (message : PyVal) : Prop :=
  exists w,
    correct_respondents (check_state self message)
    = correct_respondents self ++ [w].

(** The message was dropped: no attribute of the bot changed. *)
Definition rejected (self : Bot) (message : PyVal) : Prop :=
  check_state self message = self.

(** *** The rejection checks, on a message that is a dictionary *)

(** Check 1 does not reject: the message is present, not the bot's own, a
    group message, and from the configured group. *)
Definition addressed (self : Bot) (d : list (string * PyVal)) : bool :=
  Py.truthy (VDict d)
  && negb (Py.truthy (Py.item d "fromMe" VNone))
  && Py.truthy (Py.item d "isGroupMsg" VNone)
  && Py.eq_str (Py.item d "from" VNone) (group_id self).

Definition body_of (d : list (string * PyVal)) : string :=
  normalize (Py.item d "body" VNone).

(** Checks 1, 2, 7, 8 and 9 do not reject, and the sender can be read. *)
Definition acceptable_apart_from_time (self : Bot) (d : list (string * PyVal))
    (sender_id : string) (sender_name : PyVal) : Prop :=
  addressed self d = true
  /\ body_of d <> EmptyString
  /\ body_of d ∈ correct_answers self
  /\ sender_of (VDict d) = Ret (sender_id, sender_name)
  /\ (sender_id ∉ seen_users self)
  /\ (length (correct_respondents self) < 5)%nat.

(** Checks 1 to 7 do not reject: the message is addressed to the group,
    has a body and the integer timestamp [t], a round opened at [opened]
    is open, [t] lies in its window, and the body is an accepted answer. *)
Definition on_time_and_correct (self : Bot) (d : list (string * PyVal))
    (t opened : Z) : Prop :=
  addressed self d = true
  /\ body_of d <> EmptyString
  /\ Py.item d "t" VNone <> VNone
  /\ Py.as_int (Py.item d "t" VNone) = Ret t
  /\ question_timestamp self = Some opened
  /\ (exists cutoff, cutoff_timestamp self = Some cutoff /\ t <= cutoff)
  /\ opened <= t
  /\ body_of d ∈ correct_answers self.

(** None of the nine checks rejects: moreover the sender can be read, was
    not seen in this round, and fewer than five respondents are recorded. *)
Definition passes_all_checks (self : Bot) (d : list (string * PyVal))
    (t opened : Z) (sender_id : string) (sender_name : PyVal) : Prop :=
  on_time_and_correct self d t opened
  /\ sender_of (VDict d) = Ret (sender_id, sender_name)
  /\ (sender_id ∉ seen_users self)
  /\ (length (correct_respondents self) < 5)%nat.

(** *** Invariants of the winners *)

Definition winners_distinct (self : Bot) : Prop :=
  NoDup (map user_id (correct_respondents self)).

Definition winners_seen (self : Bot) : Prop :=
  forall w, In w (correct_respondents self) -> user_id w ∈ seen_users self.

(** *** Messages with missing sender fields *)

Definition is_dict (v : PyVal) : bool :=
  match v with VDict _ => true | _ => false end.

(** The sender mapping a message carries, empty when the key is absent;
    [None] when the value under the key is not a mapping. *)
Definition sender_mapping (d : list (string * PyVal))
  : option (list (string * PyVal)) :=
  match Py.lookup "sender" d with
  | None => Some []
  | Some (VDict info) => Some info
  | Some _ => None
  end.

Definition missing_sender_fields (d : list (string * PyVal)) : Prop :=
  match sender_mapping d with
  | None => True
  | Some info => Py.lookup "id" info = None \/ Py.lookup "pushname" info = None
  end.

(** *** Rounds *)

(** Every call the round makes to the client returns. *)
Definition sends_ok (io : RoundIO) (is_last_question : bool) : bool :=
  match io_question io, io_stop io, io_rep io with
  | Delivered _, Delivered _, Delivered _ =>
      is_last_question
      || (match io_next io with Delivered _ => true | SendFailed => false end)
  | _, _, _ => false
  end.

(** The timestamp a round opens at. *)
Definition opening_time (io : RoundIO) : Z :=
  match io_question io with
  | Delivered {| ack_id := _; ack_t := Some t |} => t
  | _ => io_clock io
  end.

Definition opening_id (io : RoundIO) : PyVal :=
  match io_question io with
  | Delivered msg => ack_id msg
  | SendFailed => VNone
  end.

(** The messages handled between the opening of a round and the moment
    its result is appended to the leaderboard. *)
Definition round_arrivals (io : RoundIO) (is_last_question : bool) : list PyVal :=
  io_collect io ++ io_grace io ++ io_reveal io ++
  (if is_last_question then [] else io_advance io).

(** The bot at the moment a round's result is appended. *)
Definition at_finish (io : RoundIO) (question : string)
    (answers : list string) (is_last_question : bool) (self : Bot) : Bot :=
  deliver (round_arrivals io is_last_question)
    (store_question {| ack_id := opening_id io; ack_t := None |} question
       (opening_time io) (reset_question answers self)).

(** The respondents a round has when its result is appended. *)
Definition round_winners (io : RoundIO) (question : string)
    (answers : list string) (is_last_question : bool) (self : Bot)
  : list Respondent :=
  correct_respondents (at_finish io question answers is_last_question self).

(** Exactly one entry was appended to the leaderboard. *)
Definition round_recorded (before after : Bot) : Prop :=
  exists entry, leaderboard_data after = leaderboard_data before ++ [entry].

(** The same surroundings with no message arriving during set-up. *)
Definition without_setup (io : RoundIO) : RoundIO := {|
  io_question := io_question io;
  io_clock := io_clock io;
  io_setup := [];
  io_collect := io_collect io;
  io_stop := io_stop io;
  io_grace := io_grace io;
  io_rep := io_rep io;
  io_reveal := io_reveal io;
  io_advance := io_advance io;
  io_next := io_next io
|}.

(** ** A round of the test-suite *)

Module Sample.

Definition group : string := "test_group".

(** The items of a group message as the messaging library delivers it. *)
Definition fields (body : string) (t : Z) (sender name id : string)
  : list (string * PyVal) :=
  [("fromMe"%string, VBool false);
   ("isGroupMsg"%string, VBool true);
   ("from"%string, VStr group);
   ("body"%string, VStr body);
   ("t"%string, VInt t);
   ("sender"%string,
     VDict [("id"%string, VStr sender);
            ("pushname"%string, VStr name)]);
   ("id"%string, VStr id)].

Definition message (body : string) (t : Z) (sender name id : string)
  : PyVal :=
  VDict (fields body t sender name id).

(** The same message without its [sender] key. *)
Definition anonymous (body : string) (t : Z) (id : string)
  : list (string * PyVal) :=
  [("fromMe"%string, VBool false);
   ("isGroupMsg"%string, VBool true);
   ("from"%string, VStr group);
   ("body"%string, VStr body);
   ("t"%string, VInt t);
   ("id"%string, VStr id)].

Definition question_ack : Ack :=
  {| ack_id := VStr "msg123"; ack_t := Some 1000 |}.

(** A round opened at 1000 with the answers of the test-suite. *)
Definition open_round : Bot :=
  store_question question_ack "Capital of France?" 1000
    (reset_question ["paris"%string; "france"%string] (init group)).

(** Six users answer correctly, one second apart. *)
Definition six_answers : list PyVal :=
  [message "Paris" 1001 "user0" "User0" "msg0";
   message "Paris" 1002 "user1" "User1" "msg1";
   message "Paris" 1003 "user2" "User2" "msg2";
   message "Paris" 1004 "user3" "User3" "msg3";
   message "Paris" 1005 "user4" "User4" "msg4";
   message "Paris" 1006 "user5" "User5" "msg5"].

(** Every call to the client returns; one user answers in time. *)
Definition io_ok : RoundIO := {|
  io_question := Delivered question_ack;
  io_clock := 999;
  io_setup := [];
  io_collect := [message "Paris" 1005 "user123" "TestUser" "msg1"];
  io_stop := Delivered {| ack_id := VStr "stop1"; ack_t := Some 1015 |};
  io_grace := [];
  io_rep := Delivered {| ack_id := VNone; ack_t := None |};
  io_reveal := [];
  io_advance := [];
  io_next := Delivered {| ack_id := VStr "next1"; ack_t := Some 1031 |}
|}.

(** The same round, except that sending STOP raises. *)
Definition io_stop_fails : RoundIO := {|
  io_question := Delivered question_ack;
  io_clock := 999;
  io_setup := [];
  io_collect := [message "Paris" 1005 "user123" "TestUser" "msg1"];
  io_stop := SendFailed;
  io_grace := [];
  io_rep := Delivered {| ack_id := VNone; ack_t := None |};
  io_reveal := [];
  io_advance := [];
  io_next := Delivered {| ack_id := VStr "next1"; ack_t := Some 1031 |}
|}.

End Sample.

(** ** [normalize] over the character tables of CPython *)

Module Str.

(** A text is a list of characters (code points).  [normalize] reaches
    the Unicode database through three library calls; what they need
    from it is taken as given:
    - [lower] is [str.lower()] on a whole text: it is not a map over
      characters (a capital sigma becomes one of two letters according to
      its neighbours, a dotted capital I becomes two characters);
    - [is_word] is the class [\w] of [re] on [str] patterns;
    - [is_space] is the class [\s], which is also what [str.strip()]
      removes;
    - [space] is the character U+0020;
    - [lowercase] tells the characters that [str.lower()] leaves as they
      are wherever they stand. *)
Record Tables (char : Type) : Type := MkTables {
  lower : list char -> list char;
  is_word : char -> bool;
  is_space : char -> bool;
  space : char;
  lowercase : char -> bool
}.

Arguments lower {char} _ _.
Arguments is_word {char} _ _.
Arguments is_space {char} _ _.
Arguments space {char} _.
Arguments lowercase {char} _ _.

(** What the statements below use of these tables: the space is
    whitespace and is left alone by [lower]; the result of [lower] holds
    only characters that [lower] leaves alone; a text of such characters
    is unchanged by [lower].  In CPython, [str.lower()] maps each
    character by the full lower-case mapping of the Unicode database,
    whose results are mapped to themselves, and treats only U+03A3 by its
    neighbours, a character that no result of [lower] holds. *)
Record Laws {char : Type} (T : Tables char) : Prop := MkLaws {
  law_space : is_space T (space T) = true;
  law_space_lowercase : lowercase T (space T) = true;
  law_lower_lowercase :
    forall t, Forall (fun c => lowercase T c = true) (lower T t);
  law_lowercase_fixed :
    forall t, Forall (fun c => lowercase T c = true) t -> lower T t = t
}.

Section Pipeline.

Context {char : Type} (T : Tables char).

(** [re.sub(r"[^\w\s]", "", t)] *)
Definition remove_non_word (t : list char) : list char :=
  List.filter (fun c => is_word T c || is_space T c) t.

(** [re.sub(r"\s+", " ", t)], scanning from the left; [in_run] tells that
    the previous character belonged to the run being replaced. *)
Fixpoint sub_spaces (in_run : bool) (t : list char) : list char :=
  match t with
  | [] => []
  | c :: t' =>
      if is_space T c
      then if in_run then sub_spaces true t'
           else space T :: sub_spaces true t'
      else c :: sub_spaces false t'
  end.

Fixpoint lstrip (t : list char) : list char :=
  match t with
  | [] => []
  | c :: t' => if is_space T c then lstrip t' else t
  end.

Definition is_nil (t : list char) : bool :=
  match t with [] => true | _ => false end.

Fixpoint rstrip (t : list char) : list char :=
  match t with
  | [] => []
  | c :: t' =>
      let r := rstrip t' in
      if is_space T c && is_nil r then [] else c :: r
  end.

(** [t.strip()] *)
Definition strip (t : list char) : list char := rstrip (lstrip t).

(** Lines 90-93. *)
Definition normalize_text (t : list char) : list char :=
  strip (sub_spaces false (remove_non_word (lower T t))).

(** [normalize]; [None] stands for an argument that is not a [str]. *)
Definition normalize (text : option (list char)) : list char :=
  match text with
  | Some t => normalize_text t
  | None => []
  end.

(** [a.lower().strip()], as the loader and [run_question] prepare an
    accepted answer. *)
Definition prepare (t : list char) : list char := strip (lower T t).

(** A text whose only whitespace is single spaces; [after_space] tells
    that the text follows a space. *)
Fixpoint collapsed (after_space : bool) (t : list char) : Prop :=
  match t with
  | [] => True
  | c :: t' =>
      if is_space T c
      then c = space T /\ after_space = false /\ collapsed true t'
      else collapsed false t'
  end.

Definition starts_clean (t : list char) : bool :=
  match t with
  | [] => true
  | c :: _ => negb (is_space T c)
  end.

End Pipeline.

End Str.

(** The tables restricted to ASCII, over which the message handler is
    embedded: [Text], [normalize], [str_lower] and [str_strip] above are
    this instance. *)
Definition ascii_tables : Str.Tables ascii := {|
  Str.lower := Text.lower;
  Str.is_word := Char.is_word;
  Str.is_space := Char.is_space;
  Str.space := Char.space;
  Str.lowercase := fun c => negb (Char.is_upper c)
|}.

(** The argument of [normalize] as a text, if it is one. *)
Definition as_text (v : PyVal) : option (list ascii) :=
  match v with
  | VStr s => Some (list_ascii_of_string s)
  | _ => None
  end.

(** ** The reveal *)

(** The order of [sorted] on strings: by character code, a prefix first. *)
Definition str_le (a b : string) : Prop := String.leb a b = true.

#[global] Instance str_le_dec (a b : string) : Decision (str_le a b) :=
  decide (String.leb a b = true).

(** [sorted(answers_copy)] *)
Definition sorted_answers (answers : gset string) : list string :=
  merge_sort str_le (elements answers).

(** The text [send_rep] sends when nobody answered correctly. *)
Definition rep_text (answers : gset string) : string :=
  "REP: " +:+ String.concat " / " (sorted_answers answers).

(** The text a call sends (lines 183, 238, 255, 260 and 270). *)
Definition call_text (call : Call) : string :=
  match call with
  | SendQuestion question_number question =>
      "Q" +:+ pretty question_number +:+ ": " +:+ question
  | SendStop => "STOP"
  | ReplyRep _ => "REP"
  | SendRep answers => rep_text answers
  | SendNext => "NEXT"
  end.

(** The call [send_rep] makes for a bot in the given state. *)
Definition reveal_call (self : Bot) : Call :=
  if Py.truthy (first_correct_message_id self)
  then ReplyRep (first_correct_message_id self)
  else SendRep (correct_answers self).

(** The bot when [send_rep] reads it. *)
Definition at_reveal (io : RoundIO) (question : string)
    (answers : list string) (self : Bot) : Bot :=
  deliver (io_collect io ++ io_grace io)
    (store_question {| ack_id := opening_id io; ack_t := None |} question
       (opening_time io) (reset_question answers self)).

(** ** The game *)

(** The rounds [main] runs to their end: those before the first round in
    which a call to the client raises. *)
Fixpoint completed_rounds (total i : Z)
    (rounds : list (string * list string * RoundIO))
  : list (string * list string * RoundIO) :=
  match rounds with
  | [] => []
  | (question, answers, io) :: rest =>
      if sends_ok io (i =? total)
      then (question, answers, io) :: completed_rounds total (i + 1) rest
      else []
  end.

(** An entry that a round can have written. *)
Definition entry_ok (e : Entry) : Prop :=
  (length (winners e) <= 5)%nat /\ NoDup (map user_id (winners e)).

(** ** Text pieces *)

(** [sep.join(pieces)] on characters. *)
Fixpoint join_with (sep : ascii) (pieces : list (list ascii)) : list ascii :=
  match pieces with
  | [] => []
  | w :: rest =>
      match rest with
      | [] => w
      | _ => w ++ sep :: join_with sep rest
      end
  end.

(** ** The leaderboard file *)

Section Rendering.

(** [time.strftime("%H:%M:%S", time.localtime(t))], which depends on the
    time zone of the host, and the format [{x:.1f}s]. *)
Variable format_time : Z -> string.
Variable format_seconds : Z -> string.

(** What [csv.writer] writes for a value: nothing for [None], the text of
    [str] otherwise. *)
Definition csv_cell (v : PyVal) : string :=
  match v with
  | VNone => EmptyString
  | _ => Py.str v
  end.

(** Lines 436-438. *)
Definition csv_header : list string :=
  "Question"%string ::
  flat_map (fun i : Z =>
              ["Winner" +:+ pretty i; "Time" +:+ pretty i;
               "ResponseTime" +:+ pretty i])
    [1; 2; 3; 4; 5].

(** Lines 449-453. *)
Definition winner_cells (w : Respondent) : list string :=
  [csv_cell (name w); format_time (timestamp w);
   format_seconds (response_time w)].

(** Lines 456-457: [while len(row) < 16: row.append("")]. *)
Definition pad_row (row : list string) : list string :=
  row ++ replicate (16 - length row) EmptyString.

(** Lines 443-457. *)
Definition csv_row (entry : Entry) : list string :=
  pad_row
    (match question_text entry with Some q => q | None => EmptyString end
     :: flat_map winner_cells (winners entry)).

(** The rows [save_leaderboard_csv] writes. *)
Definition csv_rows (self : Bot) : list (list string) :=
  csv_header :: map csv_row (leaderboard_data self).

End Rendering.

(** * Properties *)

(** ** Characters *)

Section CharFacts.

Local Ltac by_cases c :=
  destruct c as [[] [] [] [] [] [] [] []]; vm_compute;
  try reflexivity; try discriminate; auto.

Lemma lower_lower (c : ascii) : Char.lower (Char.lower c) = Char.lower c.
Proof. by_cases c. Qed.

Lemma lower_is_space (c : ascii) :
  Char.is_space (Char.lower c) = Char.is_space c.
Proof. by_cases c. Qed.

Lemma lower_is_word (c : ascii) :
  Char.is_word (Char.lower c) = Char.is_word c.
Proof. by_cases c. Qed.

Lemma lower_not_upper (c : ascii) : Char.is_upper (Char.lower c) = false.
Proof. by_cases c. Qed.

Lemma word_not_space (c : ascii) :
  Char.is_word c = true -> Char.is_space c = false.
Proof. by_cases c. Qed.

Lemma not_upper_lower (c : ascii) :
  Char.is_upper c = false -> Char.lower c = c.
Proof. unfold Char.lower. intros ->. reflexivity. Qed.

Lemma space_is_space : Char.is_space Char.space = true.
Proof. reflexivity. Qed.

Lemma clean_space : Shape.clean_char Char.space = true.
Proof. reflexivity. Qed.

Lemma clean_lower (c : ascii) :
  Shape.clean_char c = true -> Char.lower c = c.
Proof. by_cases c. Qed.

Lemma clean_kept (c : ascii) :
  Shape.clean_char c = true -> Char.is_word c || Char.is_space c = true.
Proof. by_cases c. Qed.

Lemma clean_space_only (c : ascii) :
  Shape.clean_char c = true -> Char.is_space c = true -> c = Char.space.
Proof. by_cases c. Qed.

Lemma kept_nonspace_is_word (c : ascii) :
  (Char.is_word c || Char.is_space c) && negb (Char.is_space c)
  = Char.is_word c.
Proof. by_cases c. Qed.

End CharFacts.

(** ** The stages of [normalize] *)

Section TextFacts.

Implicit Types (l : list ascii) (r : bool).

(** *** Which characters a stage can produce *)

Lemma sub_spaces_Forall (P : ascii -> Prop) r l :
  P Char.space -> Forall P l -> Forall P (Text.sub_spaces r l).
Proof.
  intros Hsp Hl. revert r.
  induction Hl as [|c l Hc Hl IH]; intros r; simpl; [constructor|].
  destruct (Char.is_space c); [destruct r|]; auto.
Qed.

Lemma lstrip_Forall (P : ascii -> Prop) l :
  Forall P l -> Forall P (Text.lstrip l).
Proof.
  induction 1 as [|c l Hc Hl IH]; simpl; [constructor|].
  destruct (Char.is_space c); auto.
Qed.

Lemma rstrip_Forall (P : ascii -> Prop) l :
  Forall P l -> Forall P (Text.rstrip l).
Proof.
  induction 1 as [|c l Hc Hl IH]; simpl; [constructor|].
  destruct (Char.is_space c && Text.is_nil (Text.rstrip l)); auto.
Qed.

Lemma sub_spaces_clean r l :
  Forall (fun c => Char.is_word c || Char.is_space c = true
                   /\ Char.is_upper c = false) l ->
  Forall (fun c => Shape.clean_char c = true) (Text.sub_spaces r l).
Proof.
  intros Hl. revert r.
  induction Hl as [|c l [Hk Hu] Hl IH]; intros r; simpl; [constructor|].
  destruct (Char.is_space c) eqn:Hs.
  - destruct r; [apply IH|]. constructor; [apply clean_space | apply IH].
  - constructor; [|apply IH].
    unfold Shape.clean_char. rewrite Hu.
    rewrite orb_false_r in Hk. rewrite Hk. apply orb_true_r.
Qed.

Lemma normalize_chars_clean l :
  Forall (fun c => Shape.clean_char c = true) (Text.normalize_chars l).
Proof.
  unfold Text.normalize_chars, Text.strip, Text.collapse_spaces.
  apply rstrip_Forall, lstrip_Forall, sub_spaces_clean.
  unfold Text.remove_non_word, Text.lower.
  apply List.Forall_forall. intros c Hc.
  apply filter_In in Hc as [Hin Hk]. split; [exact Hk|].
  apply in_map_iff in Hin as [c' [<- _]]. apply lower_not_upper.
Qed.

(** *** Texts that a stage leaves alone *)

Lemma lower_fixed l :
  Forall (fun c => Shape.clean_char c = true) l -> Text.lower l = l.
Proof.
  unfold Text.lower.
  induction 1 as [|c l Hc Hl IH]; simpl; [reflexivity|].
  rewrite (clean_lower c Hc), IH. reflexivity.
Qed.

Lemma remove_non_word_fixed l :
  Forall (fun c => Shape.clean_char c = true) l ->
  Text.remove_non_word l = l.
Proof.
  unfold Text.remove_non_word.
  induction 1 as [|c l Hc Hl IH]; simpl; [reflexivity|].
  rewrite (clean_kept c Hc), IH. reflexivity.
Qed.

Lemma collapsed_sub_spaces r l :
  Shape.collapsed r (Text.sub_spaces r l) = true.
Proof.
  revert r. induction l as [|c l IH]; intros r; simpl; [reflexivity|].
  destruct (Char.is_space c) eqn:Hs.
  - destruct r; [apply IH|]. simpl. apply IH.
  - simpl. rewrite Hs. apply IH.
Qed.

Lemma sub_spaces_fixed r l :
  Shape.collapsed r l = true -> Text.sub_spaces r l = l.
Proof.
  revert r. induction l as [|c l IH]; intros r; simpl; [reflexivity|].
  destruct (Char.is_space c) eqn:Hs.
  - intros H. apply andb_true_iff in H as [H Hl].
    apply andb_true_iff in H as [Hc Hr].
    apply Ascii.eqb_eq in Hc. apply negb_true_iff in Hr. subst r c.
    rewrite (IH true Hl). reflexivity.
  - intros Hl. rewrite (IH false Hl). reflexivity.
Qed.

Lemma collapsed_lstrip r l :
  Shape.collapsed r l = true -> Shape.collapsed false (Text.lstrip l) = true.
Proof.
  revert r. induction l as [|c l IH]; intros r; simpl; [reflexivity|].
  destruct (Char.is_space c) eqn:Hs.
  - intros H. apply andb_true_iff in H as [_ Hl]. apply (IH true Hl).
  - intros Hl. simpl. rewrite Hs. exact Hl.
Qed.

Lemma collapsed_rstrip r l :
  Shape.collapsed r l = true -> Shape.collapsed r (Text.rstrip l) = true.
Proof.
  revert r. induction l as [|c l IH]; intros r; simpl; [reflexivity|].
  destruct (Char.is_space c) eqn:Hs; simpl.
  - intros H. apply andb_true_iff in H as [H Hl].
    destruct (Text.is_nil (Text.rstrip l)); [reflexivity|].
    simpl. rewrite Hs, H. apply (IH true Hl).
  - intros Hl. rewrite Hs. apply (IH false Hl).
Qed.

Lemma starts_clean_lstrip l : Shape.starts_clean (Text.lstrip l) = true.
Proof.
  induction l as [|c l IH]; simpl; [reflexivity|].
  destruct (Char.is_space c) eqn:Hs; [exact IH|].
  simpl. rewrite Hs. reflexivity.
Qed.

Lemma lstrip_fixed l : Shape.starts_clean l = true -> Text.lstrip l = l.
Proof.
  destruct l as [|c l]; simpl; [reflexivity|].
  intros H. apply negb_true_iff in H. rewrite H. reflexivity.
Qed.

Lemma starts_clean_rstrip l :
  Shape.starts_clean l = true -> Shape.starts_clean (Text.rstrip l) = true.
Proof.
  destruct l as [|c l]; simpl; [reflexivity|].
  intros H. apply negb_true_iff in H. rewrite H. simpl.
  rewrite H. reflexivity.
Qed.

Lemma rstrip_rstrip l : Text.rstrip (Text.rstrip l) = Text.rstrip l.
Proof.
  induction l as [|c l IH]; simpl; [reflexivity|].
  destruct (Char.is_space c && Text.is_nil (Text.rstrip l)) eqn:H;
    [reflexivity|].
  simpl. rewrite IH, H. reflexivity.
Qed.

Lemma normalize_chars_fixed l :
  Text.normalize_chars (Text.normalize_chars l) = Text.normalize_chars l.
Proof.
  pose proof (normalize_chars_clean l) as Hclean.
  assert (Hcol : Shape.collapsed false (Text.normalize_chars l) = true).
  { unfold Text.normalize_chars, Text.strip, Text.collapse_spaces.
    apply collapsed_rstrip, (collapsed_lstrip false), collapsed_sub_spaces. }
  assert (Hstart : Shape.starts_clean (Text.normalize_chars l) = true).
  { unfold Text.normalize_chars, Text.strip.
    apply starts_clean_rstrip, starts_clean_lstrip. }
  unfold Text.normalize_chars at 1.
  rewrite (lower_fixed _ Hclean), (remove_non_word_fixed _ Hclean).
  unfold Text.collapse_spaces. rewrite (sub_spaces_fixed _ _ Hcol).
  unfold Text.strip. rewrite (lstrip_fixed _ Hstart).
  unfold Text.normalize_chars, Text.strip. apply rstrip_rstrip.
Qed.

End TextFacts.

(** ** [normalize] *)

Lemma chars_of_normalize (s : string) :
  list_ascii_of_string (normalize (VStr s))
  = Text.normalize_chars (list_ascii_of_string s).
Proof. apply list_ascii_of_string_of_list_ascii. Qed.

(** C7, evaluated on the code.  The documentation of [normalize] promises
    a result without punctuation, and the claim a result without any
    character that is neither alphanumeric nor whitespace; the underscore
    is punctuation and is neither, and [normalize] keeps it. *)
Theorem normalize_keeps_underscore :
  normalize (VStr "a_b") = "a_b"%string
  /\ ~ only_alnum_or_space (normalize (VStr "a_b"))
  /\ Char.is_alnum "_"%char = false
  /\ Char.is_space "_"%char = false.
Proof.
  split; [reflexivity|]. split; [|split; reflexivity].
  intros H. apply List.Forall_forall with (x := "_"%char) in H.
  - vm_compute in H. discriminate H.
  - vm_compute. right. left. reflexivity.
Qed.

(** The examples of the test-suite. *)
Example normalize_examples :
  normalize (VStr "Hello World") = "hello world"%string
  /\ normalize (VStr "Hello, World!") = "hello world"%string
  /\ normalize (VStr "What's up?") = "whats up"%string
  /\ normalize (VStr "  hello   world  ") = "hello world"%string
  /\ normalize (VStr "hello@#$%world") = "helloworld"%string
  /\ normalize VNone = EmptyString
  /\ normalize (VInt 123) = EmptyString.
Proof. repeat split; reflexivity. Qed.

(** ** The message handler, one call *)

Section ValidatorFacts.

Implicit Types (self : Bot) (message : PyVal) (d : list (string * PyVal)).

(** Case analysis on what the next statement of the body evaluates. *)
Local Ltac split_head E :=
  lazymatch E with
  | res_bind ?r _ => split_head r
  | (if ?b then _ else _) => split_head b
  | match ?x with _ => _ end => split_head x
  | _ => destruct E eqn:?
  end.

Local Ltac run_body :=
  repeat (cbn [res_bind Py.get Py.as_int fst snd];
          lazymatch goal with
          | |- match ?E with Ret _ => _ | Raise _ => _ end => split_head E
          end);
  cbn [res_bind Py.get Py.as_int fst snd].

Local Ltac tidy :=
  repeat match goal with
    | H : negb _ = false |- _ => apply negb_false_iff in H
    | H : negb _ = true |- _ => apply negb_true_iff in H
    | H : bool_decide _ = true |- _ => apply bool_decide_eq_true_1 in H
    | H : bool_decide _ = false |- _ => apply bool_decide_eq_false_1 in H
    | H : (_ <? _) = false |- _ => apply Z.ltb_ge in H
    | H : (_ >? _) = false |- _ =>
        rewrite Z.gtb_ltb in H; apply Z.ltb_ge in H
    | H : (_ <=? _)%nat = false |- _ => apply Nat.leb_gt in H
    | H : String.eqb _ _ = false |- _ => apply String.eqb_neq in H
    end.

(** A call that does not raise either changes nothing, or its message
    is a dictionary that passes the nine checks and the call records
    its sender. *)
Lemma check_answer_body_cases self message :
  match check_answer_body self message with
  | Ret r =>
      fst r = self
      \/ exists d t opened sender_id sender_name,
           message = VDict d
           /\ fst r
              = record_answer self (Py.item d "id" VNone) sender_id
                  sender_name t (t - opened)
           /\ passes_all_checks self d t opened sender_id sender_name
  | Raise _ => True
  end.
Proof.
  unfold check_answer_body. destruct message; run_body.
  all: try exact I. all: try (left; reflexivity).
  all: match goal with a : (string * PyVal)%type |- _ => destruct a end.
  all: right; do 5 eexists; split; [reflexivity|]; split; [reflexivity|].
  all: tidy.
  all: unfold passes_all_checks, on_time_and_correct, addressed, body_of.
  all: repeat split; try assumption; try congruence.
  all: try (eexists; split; [eassumption | assumption]).
  all: try (repeat (apply andb_true_iff; split); try assumption;
            apply negb_true_iff; assumption).
  all: match goal with H : Py.item _ _ _ = _ |- _ => rewrite H end;
    reflexivity.
Qed.

Lemma check_state_cases self message :
  check_state self message = self
  \/ exists d t opened sender_id sender_name,
       message = VDict d
       /\ check_state self message
          = record_answer self (Py.item d "id" VNone) sender_id
              sender_name t (t - opened)
       /\ passes_all_checks self d t opened sender_id sender_name.
Proof.
  pose proof (check_answer_body_cases self message) as H.
  unfold check_state, check_answer.
  destruct (check_answer_body self message); [exact H|].
  left. reflexivity.
Qed.

(** The exception clause: a raise inside the body leaves the bot as it
    was and logs the error. *)
Lemma check_answer_raise self message e :
  check_answer_body self message = Raise e ->
  check_answer self message = (self, [LogError e]).
Proof. unfold check_answer. intros ->. reflexivity. Qed.

(** The body on a dictionary that checks 1 and 2 let through. *)
Lemma addressed_parts self d :
  addressed self d = true ->
  Py.truthy (VDict d) = true
  /\ Py.truthy (Py.item d "fromMe" VNone) = false
  /\ Py.truthy (Py.item d "isGroupMsg" VNone) = true
  /\ Py.eq_str (Py.item d "from" VNone) (group_id self) = true.
Proof.
  unfold addressed. intros H.
  repeat (apply andb_true_iff in H as [H ?]).
  repeat split; try assumption.
  apply negb_true_iff. assumption.
Qed.

(** The nine checks passed: the call records the respondent and logs
    the response time. *)
Lemma check_answer_accepts self d t opened sender_id sender_name :
  passes_all_checks self d t opened sender_id sender_name ->
  check_answer self (VDict d)
  = (record_answer self (Py.item d "id" VNone) sender_id sender_name t
       (t - opened),
     [LogCorrect sender_name (body_of d) (t - opened)]).
Proof.
  intros [(Haddr & Hbody & Hsome & Ht & Hopen
           & (cutoff & Hcut & Hle) & Hge & Hin)
          (Hsender & Hseen & Hlen)].
  apply addressed_parts in Haddr as (H1 & H2 & H3 & H4).
  unfold body_of in *.
  unfold check_answer, check_answer_body.
  cbn [Py.get res_bind]. rewrite H1, H2, H3, H4. cbn [negb].
  apply String.eqb_neq in Hbody. rewrite Hbody.
  rewrite Hopen, Hcut, Ht. cbn [res_bind].
  rewrite (proj2 (Z.ltb_ge t opened) Hge).
  assert (Hgt : (t >? cutoff) = false).
  { rewrite Z.gtb_ltb. apply Z.ltb_ge. exact Hle. }
  rewrite Hgt, (bool_decide_eq_true_2 _ Hin). cbn [negb].
  rewrite Hsender. cbn [res_bind fst snd].
  rewrite (bool_decide_eq_false_2 _ Hseen).
  rewrite (proj2 (Nat.leb_gt _ _) Hlen).
  destruct (Py.item d "t" VNone); try reflexivity.
  contradiction.
Qed.

End ValidatorFacts.

(** ** The message handler: window, cap, one answer per user *)

Section RoundInvariants.

Implicit Types (self : Bot) (message : PyVal) (d : list (string * PyVal)).

Lemma rejected_of_not_passing self message :
  (forall d t opened sender_id sender_name,
      message = VDict d ->
      ~ passes_all_checks self d t opened sender_id sender_name) ->
  rejected self message.
Proof.
  intros Hno. unfold rejected.
  destruct (check_state_cases self message)
    as [H | (d & t & opened & sid & nm & Hm & _ & Hpass)]; [exact H|].
  exfalso. exact (Hno d t opened sid nm Hm Hpass).
Qed.

Lemma accepted_of_passing self d t opened sender_id sender_name :
  passes_all_checks self d t opened sender_id sender_name ->
  accepted self (VDict d).
Proof.
  intros Hpass. unfold accepted, check_state.
  rewrite (check_answer_accepts _ _ _ _ _ _ Hpass). cbn [fst].
  eexists. reflexivity.
Qed.

(** Inside the window an otherwise acceptable message is accepted,
    outside it is rejected. *)
Lemma window_decides self d t opened cutoff sender_id sender_name :
  question_timestamp self = Some opened ->
  cutoff_timestamp self = Some cutoff ->
  acceptable_apart_from_time self d sender_id sender_name ->
  Py.item d "t" VNone = VInt t ->
  (opened <= t <= cutoff -> accepted self (VDict d))
  /\ (t < opened \/ cutoff < t -> rejected self (VDict d)).
Proof.
  intros Hopen Hcut (Haddr & Hbody & Hin & Hsender & Hseen & Hlen) Ht.
  split.
  - intros [Hge Hle].
    apply (accepted_of_passing self d t opened sender_id sender_name).
    unfold passes_all_checks, on_time_and_correct. rewrite Ht.
    repeat split; try assumption; try discriminate.
    exists cutoff. split; assumption.
  - intros Hout. apply rejected_of_not_passing.
    intros d' t' opened' sid nm [= <-]
      [(_ & _ & _ & Ht' & Hopen' & (cutoff' & Hcut' & Hle) & Hge & _) _].
    rewrite Ht in Ht'. cbn in Ht'. injection Ht' as <-.
    rewrite Hopen in Hopen'. injection Hopen' as <-.
    rewrite Hcut in Hcut'. injection Hcut' as <-.
    lia.
Qed.

Lemma check_state_length self message :
  (length (correct_respondents self) <= 5)%nat ->
  (length (correct_respondents (check_state self message)) <= 5)%nat.
Proof.
  intros Hle.
  destruct (check_state_cases self message)
    as [-> | (d & t & opened & sid & nm & _ & -> & _ & _ & _ & Hlt)];
    [exact Hle|].
  cbn [record_answer correct_respondents].
  rewrite length_app. cbn [length]. lia.
Qed.

Lemma deliver_length messages self :
  (length (correct_respondents self) <= 5)%nat ->
  (length (correct_respondents (deliver messages self)) <= 5)%nat.
Proof.
  unfold deliver. revert self.
  induction messages as [|m ms IH]; intros self Hle; cbn [fold_left];
    [exact Hle|].
  apply IH, check_state_length, Hle.
Qed.

Lemma check_state_distinct self message :
  winners_distinct self -> winners_seen self ->
  winners_distinct (check_state self message)
  /\ winners_seen (check_state self message).
Proof.
  intros Hnd Hseen.
  destruct (check_state_cases self message)
    as [-> | (d & t & opened & sid & nm & _ & -> & _ & _ & Hfresh & _)];
    [split; assumption|].
  unfold winners_distinct, winners_seen in *.
  cbn [record_answer correct_respondents seen_users]. split.
  - rewrite map_app. cbn [map user_id].
    apply NoDup_app. split; [exact Hnd|]. split.
    + intros x Hx Hx'. apply list_elem_of_singleton in Hx'. subst x.
      apply list_elem_of_In, in_map_iff in Hx as (w & Hw & Hin).
      apply Hfresh. rewrite <- Hw. apply Hseen, Hin.
    + apply NoDup_singleton.
  - intros w Hin. apply in_app_or in Hin as [Hin | [<- | []]].
    + apply elem_of_union_r, Hseen, Hin.
    + apply elem_of_union_l, elem_of_singleton. reflexivity.
Qed.

Lemma deliver_distinct messages self :
  winners_distinct self -> winners_seen self ->
  winners_distinct (deliver messages self)
  /\ winners_seen (deliver messages self).
Proof.
  unfold deliver. revert self.
  induction messages as [|m ms IH]; intros self Hnd Hseen;
    cbn [fold_left]; [split; assumption|].
  destruct (check_state_distinct self m Hnd Hseen) as [Hnd' Hseen'].
  apply IH; assumption.
Qed.

End RoundInvariants.

(** ** The claims about the message handler *)

(** C2.  In an open round, for a message that the other checks let
    through, the window is closed at both ends: the timestamp [cutoff] is
    accepted and [cutoff + 1] rejected, the timestamp [opened] is accepted
    and [opened - 1] rejected. *)
Theorem window_inclusive (self : Bot) (d : list (string * PyVal))
    (t opened cutoff : Z) (sender_id : string) (sender_name : PyVal) :
  question_timestamp self = Some opened ->
  cutoff_timestamp self = Some cutoff ->
  opened <= cutoff ->
  acceptable_apart_from_time self d sender_id sender_name ->
  Py.item d "t" VNone = VInt t ->
  (t = cutoff -> accepted self (VDict d))
  /\ (t = cutoff + 1 -> rejected self (VDict d))
  /\ (t = opened -> accepted self (VDict d))
  /\ (t = opened - 1 -> rejected self (VDict d)).
Proof.
  intros Hopen Hcut Hle Hacc Ht.
  destruct (window_decides self d t opened cutoff sender_id sender_name
              Hopen Hcut Hacc Ht) as [Hin Hout].
  repeat split; intros ->; (apply Hin; lia) || (apply Hout; lia).
Qed.

Lemma sample_acceptable (t : Z) :
  acceptable_apart_from_time Sample.open_round
    (Sample.fields "Paris" t "user123" "TestUser" "msg1")
    "user123" (VStr "TestUser").
Proof.
  unfold acceptable_apart_from_time.
  split; [reflexivity|]. split; [discriminate|].
  split; [apply (bool_decide_unpack _); vm_compute; exact I|].
  split; [reflexivity|].
  split; [apply (bool_decide_unpack _); vm_compute; exact I|].
  cbn. lia.
Defined.

Lemma window_inclusive_witness :
  accepted Sample.open_round
    (Sample.message "Paris" 1015 "user123" "TestUser" "msg1")
  /\ rejected Sample.open_round
       (Sample.message "Paris" 1016 "user123" "TestUser" "msg1")
  /\ accepted Sample.open_round
       (Sample.message "Paris" 1000 "user123" "TestUser" "msg1")
  /\ rejected Sample.open_round
       (Sample.message "Paris" 999 "user123" "TestUser" "msg1").
Proof.
  assert (Hle : 1000 <= 1015) by lia.
  pose proof (fun t =>
    window_inclusive Sample.open_round
      (Sample.fields "Paris" t "user123" "TestUser" "msg1")
      t 1000 1015 _ _ eq_refl eq_refl Hle (sample_acceptable t) eq_refl)
    as H.
  split; [exact (proj1 (H 1015) eq_refl)|].
  split; [exact (proj1 (proj2 (H 1016)) eq_refl)|].
  split; [exact (proj1 (proj2 (proj2 (H 1000))) eq_refl)|].
  exact (proj2 (proj2 (proj2 (H 999))) eq_refl).
Defined.

(** C3.  A round that holds at most five winners still holds at most five
    after any sequence of evaluated messages; and once it holds five, one
    more message, whatever it is, is rejected and changes no attribute. *)
Theorem winners_capped (self : Bot) (messages : list PyVal)
    (message : PyVal) :
  (length (correct_respondents self) <= 5)%nat ->
  let after := deliver messages self in
  (length (correct_respondents after) <= 5)%nat
  /\ (length (correct_respondents after) = 5%nat -> rejected after message).
Proof.
  intros Hle after. split; [apply deliver_length, Hle|].
  intros Hfull. apply rejected_of_not_passing.
  intros d t opened sid nm _ (_ & _ & _ & Hlt). lia.
Qed.

Lemma winners_capped_witness :
  length (correct_respondents (deliver Sample.six_answers Sample.open_round))
  = 5%nat
  /\ rejected (deliver Sample.six_answers Sample.open_round)
       (Sample.message "Paris" 1007 "user6" "User6" "msg6").
Proof.
  assert (Hle : (length (correct_respondents Sample.open_round) <= 5)%nat)
    by (cbn; lia).
  pose proof (winners_capped Sample.open_round Sample.six_answers
                (Sample.message "Paris" 1007 "user6" "User6" "msg6") Hle)
    as [_ H].
  assert (Hfull : length (correct_respondents
                            (deliver Sample.six_answers Sample.open_round))
                  = 5%nat) by (vm_compute; reflexivity).
  split; [exact Hfull | exact (H Hfull)].
Defined.

(** C4.  If the user ids of the winners are pairwise distinct and all in
    [seen_users], as they are when a round starts, they still are after
    any sequence of evaluated messages; and a message whose sender is in
    [seen_users] is rejected and changes no attribute. *)
Theorem winners_unique (self : Bot) (messages : list PyVal)
    (message : PyVal) (sender_id : string) (sender_name : PyVal) :
  winners_distinct self ->
  winners_seen self ->
  let after := deliver messages self in
  winners_distinct after
  /\ winners_seen after
  /\ (sender_of message = Ret (sender_id, sender_name) ->
      sender_id ∈ seen_users after ->
      rejected after message).
Proof.
  intros Hnd Hseen after.
  destruct (deliver_distinct messages self Hnd Hseen) as [Hnd' Hseen'].
  split; [exact Hnd'|]. split; [exact Hseen'|].
  intros Hsender Hin. apply rejected_of_not_passing.
  intros d t opened sid nm -> (_ & Hsender' & Hfresh & _).
  rewrite Hsender in Hsender'. injection Hsender' as <- _.
  exact (Hfresh Hin).
Qed.

Lemma winners_unique_witness :
  let first := Sample.message "Paris" 1005 "user123" "TestUser" "msg1" in
  let second := Sample.message "France" 1007 "user123" "TestUser" "msg2" in
  map user_id (correct_respondents (deliver [first] Sample.open_round))
  = ["user123"%string]
  /\ winners_distinct (deliver [first] Sample.open_round)
  /\ rejected (deliver [first] Sample.open_round) second.
Proof.
  intros first second.
  assert (Hnd : winners_distinct Sample.open_round) by (apply NoDup_nil_2).
  assert (Hseen : winners_seen Sample.open_round) by (intros w []).
  pose proof (winners_unique Sample.open_round [first] second "user123"
                (VStr "TestUser") Hnd Hseen) as (H1 & _ & H3).
  split; [vm_compute; reflexivity|]. split; [exact H1|].
  apply H3; [reflexivity|].
  apply (bool_decide_unpack _). vm_compute. exact I.
Defined.

(** C5.  A message that passes all nine checks is recorded exactly so:
    its sender joins [seen_users]; [first_correct_message_id] takes the
    message's id when it held nothing (a false value) and is unchanged
    otherwise; one respondent with response time [t - opened] is appended
    to [correct_respondents]; no other attribute changes; and the
    acceptance is logged with that response time. *)
Theorem accepted_answer_recorded (self : Bot) (d : list (string * PyVal))
    (t opened : Z) (sender_id : string) (sender_name : PyVal) :
  passes_all_checks self d t opened sender_id sender_name ->
  let after := check_state self (VDict d) in
  seen_users after = {[sender_id]} ∪ seen_users self
  /\ first_correct_message_id after
     = (if Py.truthy (first_correct_message_id self)
        then first_correct_message_id self
        else Py.item d "id" VNone)
  /\ correct_respondents after
     = correct_respondents self ++
       [{| user_id := sender_id; name := sender_name;
           timestamp := t; response_time := t - opened |}]
  /\ (group_id after = group_id self
      /\ correct_answers after = correct_answers self
      /\ current_question_msg_id after = current_question_msg_id self
      /\ current_question_text after = current_question_text self
      /\ question_timestamp after = question_timestamp self
      /\ cutoff_timestamp after = cutoff_timestamp self
      /\ leaderboard_data after = leaderboard_data self)
  /\ snd (check_answer self (VDict d))
     = [LogCorrect sender_name (body_of d) (t - opened)].
Proof.
  intros Hpass after. subst after. unfold check_state.
  rewrite (check_answer_accepts _ _ _ _ _ _ Hpass).
  cbn [fst snd record_answer seen_users first_correct_message_id
       correct_respondents group_id correct_answers current_question_msg_id
       current_question_text question_timestamp cutoff_timestamp
       leaderboard_data].
  repeat split.
  destruct (Py.truthy (first_correct_message_id self)); reflexivity.
Qed.

Lemma sample_passes :
  passes_all_checks Sample.open_round
    (Sample.fields "Paris" 1005 "user123" "TestUser" "msg123")
    1005 1000 "user123" (VStr "TestUser").
Proof.
  unfold passes_all_checks, on_time_and_correct.
  split; [|split; [reflexivity|
           split; [apply (bool_decide_unpack _); vm_compute; exact I
                  | cbn; lia]]].
  split; [reflexivity|]. split; [discriminate|]. split; [discriminate|].
  split; [reflexivity|]. split; [reflexivity|].
  split; [exists 1015; split; [reflexivity | lia]|].
  split; [lia|]. apply (bool_decide_unpack _). vm_compute. exact I.
Defined.

Lemma accepted_answer_recorded_witness :
  let after :=
    check_state Sample.open_round
      (Sample.message "Paris" 1005 "user123" "TestUser" "msg123") in
  first_correct_message_id after = VStr "msg123"
  /\ correct_respondents after
     = [{| user_id := "user123"; name := VStr "TestUser";
           timestamp := 1005; response_time := 5 |}].
Proof.
  intros after.
  pose proof (accepted_answer_recorded Sample.open_round _ _ _ _ _
                sample_passes) as (_ & H2 & H3 & _).
  split; [exact H2 | exact H3].
Defined.

(** ** Messages with missing sender fields *)

(** The defaults of lines 365-367. *)
Lemma sender_of_mapping (d info : list (string * PyVal)) :
  sender_mapping d = Some info ->
  sender_of (VDict d)
  = Ret (Py.str (Py.item info "id" (VDict info)),
         Py.item info "pushname" (VStr "Someone")).
Proof.
  unfold sender_mapping, sender_of, Py.get at 1, Py.item at 1.
  destruct (Py.lookup "sender" d) as [v|]; [destruct v|];
    intros [= <-]; reflexivity.
Qed.

Lemma sender_of_not_mapping (d : list (string * PyVal)) :
  sender_mapping d = None -> sender_of (VDict d) = Raise AttributeError.
Proof.
  unfold sender_mapping, sender_of, Py.get at 1, Py.item at 1.
  destruct (Py.lookup "sender" d) as [v|]; [destruct v|];
    intros [=]; reflexivity.
Qed.

(** C8, as the claim states it, fails: a message of the open round that
    has no [sender] key at all is not rejected; it becomes a winner under
    the id "{}" and the name "Someone". *)
Lemma missing_sender_wins :
  let d := Sample.anonymous "Paris" 1005 "msg1" in
  missing_sender_fields d
  /\ ~ rejected Sample.open_round (VDict d)
  /\ correct_respondents (check_state Sample.open_round (VDict d))
     = [{| user_id := "{}"; name := VStr "Someone";
           timestamp := 1005; response_time := 5 |}].
Proof.
  intros d. split; [left; reflexivity|]. split.
  - unfold rejected. intros H.
    apply (f_equal (fun b => length (correct_respondents b))) in H.
    vm_compute in H. discriminate H.
  - vm_compute. reflexivity.
Qed.

(** C8, amended.  For a message with missing sender fields: an exception
    raised while it is evaluated is caught, logged, and leaves the bot
    unchanged.  When the value under [sender] is not a mapping, the
    message is rejected, and if it had passed the first seven checks the
    log line is that of the attribute error.  When the mapping is absent
    or lacks its id or name, that alone rejects nothing: the id defaults
    to the text of the mapping and the name to "Someone", and a message
    that passes the nine checks under these values is recorded as a
    winner with them. *)
Theorem missing_sender_defaults (self : Bot) (d : list (string * PyVal)) :
  missing_sender_fields d ->
  (forall e,
      check_answer_body self (VDict d) = Raise e ->
      check_answer self (VDict d) = (self, [LogError e]))
  /\ (sender_mapping d = None ->
      rejected self (VDict d)
      /\ (forall t opened,
            on_time_and_correct self d t opened ->
            check_answer self (VDict d) = (self, [LogError AttributeError])))
  /\ (forall info,
        sender_mapping d = Some info ->
        let sender_id := Py.str (Py.item info "id" (VDict info)) in
        let sender_name := Py.item info "pushname" (VStr "Someone") in
        sender_of (VDict d) = Ret (sender_id, sender_name)
        /\ (sender_id = Py.repr (VDict info)
            \/ sender_name = VStr "Someone")
        /\ (Py.lookup "id" info = None -> sender_id = Py.repr (VDict info))
        /\ (Py.lookup "pushname" info = None ->
            sender_name = VStr "Someone")
        /\ (forall t opened,
              passes_all_checks self d t opened sender_id sender_name ->
              correct_respondents (check_state self (VDict d))
              = correct_respondents self ++
                [{| user_id := sender_id; name := sender_name;
                    timestamp := t; response_time := t - opened |}])).
Proof.
  intros Hmissing. split; [intros e; apply check_answer_raise|]. split.
  - intros Hnone. pose proof (sender_of_not_mapping d Hnone) as Hraise.
    split.
    + apply rejected_of_not_passing.
      intros d' t opened sid nm [= <-] (_ & Hsender & _).
      rewrite Hraise in Hsender. discriminate Hsender.
    + intros t opened
        (Haddr & Hbody & Hsome & Ht & Hopen
         & (cutoff & Hcut & Hle) & Hge & Hin).
      apply addressed_parts in Haddr as (H1 & H2 & H3 & H4).
      unfold body_of in *.
      unfold check_answer, check_answer_body.
      cbn [Py.get res_bind]. rewrite H1, H2, H3, H4. cbn [negb].
      apply String.eqb_neq in Hbody. rewrite Hbody.
      rewrite Hopen, Hcut, Ht. cbn [res_bind].
      rewrite (proj2 (Z.ltb_ge t opened) Hge).
      assert (Hgt : (t >? cutoff) = false).
      { rewrite Z.gtb_ltb. apply Z.ltb_ge. exact Hle. }
      rewrite Hgt, (bool_decide_eq_true_2 _ Hin). cbn [negb].
      rewrite Hraise. cbn [res_bind].
      destruct (Py.item d "t" VNone); try reflexivity.
      contradiction.
  - intros info Hinfo sender_id sender_name.
    assert (Hid : Py.lookup "id" info = None ->
                  sender_id = Py.repr (VDict info)).
    { intros Hid. subst sender_id. unfold Py.item. rewrite Hid.
      reflexivity. }
    assert (Hname : Py.lookup "pushname" info = None ->
                    sender_name = VStr "Someone").
    { intros Hname. subst sender_name. unfold Py.item. rewrite Hname.
      reflexivity. }
    split; [apply sender_of_mapping, Hinfo|].
    split; [|split; [exact Hid|split; [exact Hname|]]].
    + unfold missing_sender_fields in Hmissing. rewrite Hinfo in Hmissing.
      destruct Hmissing as [H | H]; [left; exact (Hid H)|].
      right. exact (Hname H).
    + intros t opened Hpass. unfold check_state.
      rewrite (check_answer_accepts _ _ _ _ _ _ Hpass). reflexivity.
Qed.

Lemma sample_anonymous_passes :
  passes_all_checks Sample.open_round (Sample.anonymous "Paris" 1005 "msg1")
    1005 1000 "{}" (VStr "Someone").
Proof.
  unfold passes_all_checks, on_time_and_correct.
  split; [|split; [reflexivity|
           split; [apply (bool_decide_unpack _); vm_compute; exact I
                  | cbn; lia]]].
  split; [reflexivity|]. split; [discriminate|]. split; [discriminate|].
  split; [reflexivity|]. split; [reflexivity|].
  split; [exists 1015; split; [reflexivity | lia]|].
  split; [lia|]. apply (bool_decide_unpack _). vm_compute. exact I.
Defined.

Lemma missing_sender_defaults_witness :
  let d := Sample.anonymous "Paris" 1005 "msg1" in
  missing_sender_fields d
  /\ sender_of (VDict d) = Ret ("{}"%string, VStr "Someone")
  /\ correct_respondents (check_state Sample.open_round (VDict d))
     = [{| user_id := "{}"; name := VStr "Someone";
           timestamp := 1005; response_time := 5 |}].
Proof.
  intros d.
  assert (Hmissing : missing_sender_fields d) by (left; reflexivity).
  pose proof (missing_sender_defaults Sample.open_round d Hmissing)
    as (_ & _ & H).
  destruct (H [] eq_refl) as (Hsender & _ & _ & _ & Hwin).
  split; [exact Hmissing|]. split; [exact Hsender|].
  exact (Hwin 1005 1000 sample_anonymous_passes).
Defined.

(** ** The round controller *)

Section RoundFacts.

Implicit Types (self : Bot) (message : PyVal) (io : RoundIO).

(** The callback touches neither the leaderboard nor the attributes that
    describe the question. *)
Lemma check_state_frame self message :
  leaderboard_data (check_state self message) = leaderboard_data self
  /\ current_question_text (check_state self message)
     = current_question_text self.
Proof.
  destruct (check_state_cases self message)
    as [-> | (d & t & opened & sid & nm & _ & -> & _)];
    split; reflexivity.
Qed.

Lemma deliver_frame messages self :
  leaderboard_data (deliver messages self) = leaderboard_data self
  /\ current_question_text (deliver messages self)
     = current_question_text self.
Proof.
  unfold deliver. revert self.
  induction messages as [|m ms IH]; intros self; cbn [fold_left];
    [split; reflexivity|].
  destruct (IH (check_state self m)) as [-> ->].
  apply check_state_frame.
Qed.

Lemma deliver_app (ms1 ms2 : list PyVal) self :
  deliver (ms1 ++ ms2) self = deliver ms2 (deliver ms1 self).
Proof. apply fold_left_app. Qed.

(** While no round is open, the callback changes nothing. *)
Lemma closed_rejects self message :
  question_timestamp self = None -> rejected self message.
Proof.
  intros Hclosed. apply rejected_of_not_passing.
  intros d t opened sid nm _ [(_ & _ & _ & _ & Hopen & _) _].
  rewrite Hclosed in Hopen. discriminate Hopen.
Qed.

Lemma closed_deliver messages self :
  question_timestamp self = None ->
  Forall (rejected self) messages /\ deliver messages self = self.
Proof.
  intros Hclosed. unfold deliver.
  induction messages as [|m ms [IH1 IH2]]; cbn [fold_left];
    [split; [constructor | reflexivity]|].
  pose proof (closed_rejects self m Hclosed) as Hm.
  split; [constructor; assumption|].
  unfold rejected in Hm. rewrite Hm. exact IH2.
Qed.

Lemma at_finish_frame io question answers is_last_question self :
  leaderboard_data (at_finish io question answers is_last_question self)
  = leaderboard_data self
  /\ current_question_text
       (at_finish io question answers is_last_question self)
     = Some question.
Proof.
  unfold at_finish.
  destruct (deliver_frame (round_arrivals io is_last_question)
              (store_question {| ack_id := opening_id io; ack_t := None |}
                 question (opening_time io)
                 (reset_question answers self))) as [-> ->].
  split; reflexivity.
Qed.

End RoundFacts.

(** What [run_question] returns, call by call. *)
Lemma run_question_result (io : RoundIO) (question : string)
    (answers : list string) (is_last_question : bool) (question_number : Z)
    (self : Bot) :
  match run_question io question answers is_last_question question_number
          self with
  | (after, calls, result) =>
      if sends_ok io is_last_question
      then result = Ret tt
           /\ after
              = (if is_last_question
                 then record_round
                        (at_finish io question answers true self)
                 else clear_question
                        (record_round
                           (at_finish io question answers false self)))
      else result = Raise GatewayError
           /\ leaderboard_data after = leaderboard_data self
  end.
Proof.
  pose proof (closed_deliver (io_setup io) (reset_question answers self)
                eq_refl) as [_ Hsetup].
  destruct io as [q clock setup collect stop grace rep reveal advance next].
  cbn [io_setup] in Hsetup.
  unfold run_question, sends_ok, at_finish, round_arrivals, opening_time,
    opening_id, send_stop, send_rep, send_next.
  cbn [io_question io_clock io_setup io_collect io_stop io_grace io_rep
       io_reveal io_advance io_next].
  unfold m_bind, locked, sleep, read, send, m_ret. rewrite Hsetup.
  destruct q as [[qid qt]|], stop, is_last_question; cbn [fst snd negb].
  all: try match goal with
         | |- context [if Py.truthy ?v then _ else _] =>
             destruct (Py.truthy v), rep; cbn [fst snd negb]
         end.
  all: try match goal with
         | |- context [match ?x with Delivered _ => _ | SendFailed => _ end] =>
             destruct x; cbn [fst snd negb orb]
         end.
  all: rewrite ?app_nil_r, ?deliver_app.
  all: repeat rewrite (proj1 (deliver_frame _ _)).
  all: split; reflexivity.
Qed.

(** C1, as the claim states it, fails: when sending STOP raises, the
    exception leaves [run_question] and [main], the round that had a
    winner is not appended to the leaderboard, and the next question is
    never asked. *)
Lemma stop_failure_loses_round :
  let answers := ["paris"%string; "france"%string] in
  let before := init Sample.group in
  (let '(after, calls, result) :=
     run_question Sample.io_stop_fails "Capital of France?" answers false 1
       before in
   result = Raise GatewayError
   /\ map user_id (correct_respondents after) = ["user123"%string]
   /\ leaderboard_data after = []
   /\ ~ round_recorded before after)
  /\ (let '(after, calls, result) :=
        main Sample.group
          [("Capital of France?"%string, answers, Sample.io_stop_fails);
           ("What is 2+2?"%string, ["4"%string; "four"%string],
            Sample.io_ok)] in
      result = Raise GatewayError
      /\ calls = [SendQuestion 1 "Capital of France?"; SendStop]
      /\ leaderboard_data after = []).
Proof.
  split.
  - vm_compute. repeat split. intros [entry H]. discriminate H.
  - vm_compute. repeat split.
Qed.

(** C1, amended.  When every call the round makes to the client returns,
    [run_question] returns and appends exactly one entry to the
    leaderboard: the question's text with the respondents recorded up to
    that moment.  When one of these calls raises, the exception leaves
    [run_question] and the leaderboard is what it was before the round. *)
Theorem round_recorded_when_sends_succeed (io : RoundIO) (question : string)
    (answers : list string) (is_last_question : bool) (question_number : Z)
    (self : Bot) :
  let '(after, calls, result) :=
    run_question io question answers is_last_question question_number self in
  if sends_ok io is_last_question
  then result = Ret tt
       /\ round_recorded self after
       /\ leaderboard_data after
          = leaderboard_data self ++
            [{| question_text := Some question;
                winners :=
                  round_winners io question answers is_last_question self |}]
  else result = Raise GatewayError
       /\ leaderboard_data after = leaderboard_data self.
Proof.
  pose proof (run_question_result io question answers is_last_question
                question_number self) as H.
  destruct (run_question io question answers is_last_question
              question_number self) as [[after calls] result].
  destruct (sends_ok io is_last_question); [|exact H].
  destruct H as [-> ->].
  assert (forall last,
             leaderboard_data
               (record_round (at_finish io question answers last self))
             = leaderboard_data self ++
               [{| question_text := Some question;
                   winners := round_winners io question answers last self |}])
    as Hrec.
  { intros last. unfold round_winners. cbn [record_round leaderboard_data].
    destruct (at_finish_frame io question answers last self) as [-> ->].
    reflexivity. }
  split; [reflexivity|].
  unfold round_recorded.
  destruct is_last_question; cbn [clear_question leaderboard_data];
    rewrite Hrec; split; eauto.
Qed.

Example round_of_the_test_suite :
  let '(after, calls, result) :=
    run_question Sample.io_ok "Capital of France?"
      ["paris"%string; "france"%string] true 1 (init Sample.group) in
  result = Ret tt
  /\ calls = [SendQuestion 1 "Capital of France?"; SendStop;
              ReplyRep (VStr "msg1")]
  /\ leaderboard_data after
     = [{| question_text := Some "Capital of France?"%string;
           winners := [{| user_id := "user123"; name := VStr "TestUser";
                          timestamp := 1005; response_time := 5 |}] |}].
Proof. vm_compute. repeat split. Qed.

(** C10.  After the reset that starts a round and until the timestamps
    are stored, [question_timestamp] and [cutoff_timestamp] are [None];
    every message evaluated in between is rejected and the bot stays as
    the reset left it, so the round is the same as if no message had
    arrived in between. *)
Theorem setup_window_closed (self : Bot) (answers : list string)
    (io : RoundIO) :
  let half := reset_question answers self in
  let arrivals := io_setup io in
  question_timestamp half = None
  /\ cutoff_timestamp half = None
  /\ Forall (rejected half) arrivals
  /\ deliver arrivals half = half
  /\ (forall question is_last_question question_number,
        run_question io question answers is_last_question question_number
          self
        = run_question (without_setup io) question answers is_last_question
            question_number self).
Proof.
  intros half arrivals.
  destruct (closed_deliver arrivals half eq_refl) as [Hall Hsame].
  split; [reflexivity|]. split; [reflexivity|].
  split; [exact Hall|]. split; [exact Hsame|].
  intros question is_last_question question_number.
  unfold run_question, m_bind, locked, sleep.
  cbn [without_setup io_question io_clock io_setup io_collect io_stop
       io_grace io_rep io_reveal io_advance io_next].
  fold arrivals. fold half. rewrite Hsame.
  reflexivity.
Qed.

(** ** Accepted answers and normalisation *)

(** A text with a character that [normalize] never leaves in its result
    is the normal form of no message body. *)
Lemma normalize_never_yields (v : PyVal) (s : string) (c : ascii) :
  In c (list_ascii_of_string s) ->
  Shape.clean_char c = false ->
  normalize v <> s.
Proof.
  intros Hin Hc Heq. subst s.
  destruct v; try (cbn in Hin; contradiction).
  rewrite chars_of_normalize in Hin.
  pose proof (normalize_chars_clean (list_ascii_of_string s)) as Hclean.
  rewrite List.Forall_forall in Hclean. apply Hclean in Hin. congruence.
Qed.

Lemma space_lower (c : ascii) : Char.is_space c = true -> Char.lower c = c.
Proof.
destruct c as [[] [] [] [] [] [] [] []]; vm_compute;
  try reflexivity; discriminate.
Qed.

Lemma plain_char (c : ascii) :
  Char.is_word c || Ascii.eqb c Char.space = true ->
  Char.is_word (Char.lower c) || Char.is_space (Char.lower c) = true.
Proof.
destruct c as [[] [] [] [] [] [] [] []]; vm_compute;
  try reflexivity; discriminate.
Qed.

Lemma collapsed_lower (r : bool) (l : list ascii) :
  Shape.collapsed r (Text.lower l) = Shape.collapsed r l.
Proof.
unfold Text.lower. revert r.
induction l as [|c l IH]; intros r; [reflexivity|].
cbn [map Shape.collapsed]. rewrite lower_is_space.
destruct (Char.is_space c) eqn:Hs; [|apply IH].
rewrite (space_lower c Hs), IH. reflexivity.
Qed.

(** On a plain answer, lower-casing and stripping is normalising: the two
    ways of preparing a text differ only on punctuation and on whitespace
    other than single spaces. *)
Lemma plain_answer_normalized (a : string) :
  plain a -> str_strip (str_lower a) = normalize (VStr a).
Proof.
intros [Hchars Hcol]. unfold str_strip, str_lower, normalize.
rewrite list_ascii_of_string_of_list_ascii. f_equal.
unfold Text.normalize_chars, Text.collapse_spaces. f_equal.
set (l := list_ascii_of_string a) in *.
assert (Hkeep : Text.remove_non_word (Text.lower l) = Text.lower l).
{ clear Hcol. unfold Text.remove_non_word, Text.lower.
  induction Hchars as [|c l' Hc Hl IH]; [reflexivity|].
  cbn [map List.filter]. rewrite (plain_char c Hc), IH. reflexivity. }
rewrite Hkeep. symmetry. apply sub_spaces_fixed.
rewrite collapsed_lower. exact Hcol.
Qed.

(** C6, evaluated on the code.  The accepted answers of a round are the
    caller's answers lower-cased and stripped, not normalised: for the
    answer "St. Louis" the round stores "st. louis", the same text in a
    message normalises to "st louis", and the message is rejected; the
    question loader treats its field in the same way.  No message can
    match a stored answer that keeps a punctuation character. *)
Theorem punctuated_answer_never_matches :
  let answers := ["St. Louis"%string] in
  let self :=
    store_question Sample.question_ack "Gateway Arch city?" 1000
      (reset_question answers (init Sample.group)) in
  correct_answers self = {["st. louis"%string]}
  /\ correct_answers self
     <> list_to_set (map (fun a => normalize (VStr a)) answers)
  /\ load_answers "St. Louis|Saint Louis"
     = {["st. louis"%string; "saint louis"%string]}
  /\ normalize (VStr "St. Louis") = "st louis"%string
  /\ rejected self
       (Sample.message "St. Louis" 1005 "user123" "TestUser" "msg1")
  /\ (forall message, normalize message <> "st. louis"%string).
Proof.
  intros answers self.
  split; [vm_compute; reflexivity|].
  split.
  { intros H.
    assert (Hin : "st. louis"%string ∈ correct_answers self)
      by (apply (bool_decide_unpack _); vm_compute; exact I).
    rewrite H in Hin. revert Hin.
    apply (bool_decide_unpack _). vm_compute. exact I. }
  split; [vm_compute; reflexivity|].
  split; [reflexivity|].
  split; [vm_compute; reflexivity|].
  intros message. apply (normalize_never_yields message _ "."%char).
  - vm_compute. tauto.
  - reflexivity.
Qed.

(** * Further properties of the code *)

(** ** What the message handler ignores *)

Section Ignored.

Implicit Types (self : Bot) (d : list (string * PyVal)).

(** The first tests of the body on a dictionary, one case each. *)
Local Ltac filters :=
  unfold check_answer, check_answer_body; cbn [Py.get res_bind];
  destruct (negb (Py.truthy (VDict _))) eqn:Hpresent; [reflexivity|];
  destruct (Py.truthy (Py.item _ "fromMe" VNone)) eqn:Hme; [reflexivity|];
  destruct (Py.truthy (Py.item _ "isGroupMsg" VNone)) eqn:Hgroup;
    cbn [negb]; [|reflexivity];
  destruct (Py.eq_str (Py.item _ "from" VNone) _) eqn:Hfrom;
    cbn [negb]; [|reflexivity].

(** A message of the bot itself, a message that is not a group message
    and a message from another chat change nothing and log nothing,
    whatever their body. *)
Theorem foreign_message_ignored self d :
  Py.truthy (Py.item d "fromMe" VNone) = true
  \/ Py.truthy (Py.item d "isGroupMsg" VNone) = false
  \/ Py.eq_str (Py.item d "from" VNone) (group_id self) = false ->
  check_answer self (VDict d) = (self, []).
Proof.
intros H. filters. exfalso. destruct H as [H | [H | H]]; congruence.
Qed.

Lemma foreign_message_ignored_witness :
  check_answer Sample.open_round
    (VDict (("fromMe"%string, VBool true)
            :: Sample.fields "Paris" 1005 "bot" "Bot" "msg9"))
  = (Sample.open_round, []).
Proof.
apply foreign_message_ignored. left. reflexivity.
Defined.

(** A message whose body normalises to nothing (no text, or no word
    character in it) changes nothing and logs nothing. *)
Theorem empty_body_ignored self d :
  body_of d = EmptyString -> check_answer self (VDict d) = (self, []).
Proof.
unfold body_of. intros H. filters. rewrite H. reflexivity.
Qed.

Lemma empty_body_ignored_witness :
  check_answer Sample.open_round
    (Sample.message "?!  ..." 1005 "user123" "TestUser" "msg1")
  = (Sample.open_round, []).
Proof.
apply empty_body_ignored. reflexivity.
Defined.

(** A message addressed to the group, with a body but without a
    timestamp, changes nothing and is logged as such, whether a round is
    open or not. *)
Theorem missing_timestamp_logged self d :
  addressed self d = true ->
  body_of d <> EmptyString ->
  Py.item d "t" VNone = VNone ->
  check_answer self (VDict d) = (self, [LogNoTimestamp]).
Proof.
unfold body_of. intros Haddr Hbody Ht.
apply addressed_parts in Haddr as (H1 & H2 & H3 & H4).
apply String.eqb_neq in Hbody.
unfold check_answer, check_answer_body. cbn [Py.get res_bind].
rewrite H1, H2, H3, H4, Hbody, Ht. reflexivity.
Qed.

Lemma missing_timestamp_logged_witness :
  check_answer Sample.open_round
    (VDict [("fromMe"%string, VBool false);
            ("isGroupMsg"%string, VBool true);
            ("from"%string, VStr Sample.group);
            ("body"%string, VStr "Paris")])
  = (Sample.open_round, [LogNoTimestamp]).
Proof.
apply missing_timestamp_logged; [reflexivity | discriminate | reflexivity].
Defined.

(** In an open round, a timestamp that is not a number makes the
    comparison raise; the handler catches the error, logs it and changes
    nothing. *)
Theorem malformed_timestamp_caught self d opened cutoff :
  addressed self d = true ->
  body_of d <> EmptyString ->
  Py.item d "t" VNone <> VNone ->
  Py.as_int (Py.item d "t" VNone) = Raise TypeError ->
  question_timestamp self = Some opened ->
  cutoff_timestamp self = Some cutoff ->
  check_answer self (VDict d) = (self, [LogError TypeError]).
Proof.
unfold body_of. intros Haddr Hbody Hsome Ht Hopen Hcut.
apply addressed_parts in Haddr as (H1 & H2 & H3 & H4).
apply String.eqb_neq in Hbody.
unfold check_answer, check_answer_body. cbn [Py.get res_bind].
rewrite H1, H2, H3, H4, Hbody, Hopen, Hcut, Ht. cbn [negb res_bind].
destruct (Py.item d "t" VNone); try reflexivity. contradiction.
Qed.

Lemma malformed_timestamp_caught_witness :
  check_answer Sample.open_round
    (VDict (("t"%string, VStr "soon")
            :: Sample.fields "Paris" 1005 "user123" "TestUser" "msg1"))
  = (Sample.open_round, [LogError TypeError]).
Proof.
apply (malformed_timestamp_caught _ _ 1000 1015);
  reflexivity || discriminate.
Defined.

(** A message that is not a dictionary never reaches the round: a false
    value is dropped silently, any other value makes the first [get]
    raise, which is caught and logged. *)
Theorem non_dictionary_message self (message : PyVal) :
  is_dict message = false ->
  check_answer self message
  = (self, if Py.truthy message then [LogError AttributeError] else []).
Proof.
intros H. unfold check_answer, check_answer_body.
destruct message; try discriminate H;
  destruct (Py.truthy _); reflexivity.
Qed.

Lemma non_dictionary_message_witness :
  check_answer Sample.open_round (VStr "Paris")
  = (Sample.open_round, [LogError AttributeError])
  /\ check_answer Sample.open_round VNone = (Sample.open_round, []).
Proof.
split; apply non_dictionary_message; reflexivity.
Defined.

(** A message whose normalised body is not an accepted answer leaves the
    bot unchanged. *)
Theorem wrong_answer_rejected self d :
  body_of d ∉ correct_answers self -> rejected self (VDict d).
Proof.
intros Hwrong. apply rejected_of_not_passing.
intros d' t opened sid nm [= <-] [(_ & _ & _ & _ & _ & _ & _ & Hin) _].
exact (Hwrong Hin).
Qed.

Lemma wrong_answer_rejected_witness :
  rejected Sample.open_round
    (Sample.message "London" 1005 "user123" "TestUser" "msg1").
Proof.
apply wrong_answer_rejected.
apply (bool_decide_unpack _). vm_compute. exact I.
Defined.

End Ignored.

(** ** What a round keeps while messages arrive *)

Section RoundProgress.

Implicit Types (self : Bot) (d : list (string * PyVal)).

(** One call changes three attributes at most. *)
Lemma check_state_extends self (message : PyVal) :
  let after := check_state self message in
  (exists more,
      correct_respondents after = correct_respondents self ++ more)
  /\ seen_users self ⊆ seen_users after
  /\ group_id after = group_id self
  /\ correct_answers after = correct_answers self
  /\ current_question_msg_id after = current_question_msg_id self
  /\ current_question_text after = current_question_text self
  /\ question_timestamp after = question_timestamp self
  /\ cutoff_timestamp after = cutoff_timestamp self
  /\ leaderboard_data after = leaderboard_data self.
Proof.
intros after. subst after.
destruct (check_state_cases self message)
  as [-> | (d & t & opened & sid & nm & _ & -> & _)].
- split; [exists []; symmetry; apply app_nil_r|].
  split; [reflexivity|]. repeat split.
- cbn [record_answer correct_respondents seen_users group_id
       correct_answers current_question_msg_id current_question_text
       question_timestamp cutoff_timestamp leaderboard_data].
  split; [eexists; reflexivity|].
  split; [apply union_subseteq_r|]. repeat split.
Qed.

Lemma deliver_answers self (messages : list PyVal) :
  correct_answers (deliver messages self) = correct_answers self.
Proof.
unfold deliver. revert self.
induction messages as [|m ms IH]; intros self; cbn [fold_left];
  [reflexivity|].
rewrite IH. apply (check_state_extends self m).
Qed.

(** The handler changes three attributes at most: respondents are only
    appended, seen users only added, and the group, the accepted answers,
    the question, its window and the leaderboard stay as they are. *)
Theorem handler_only_extends_round self (messages : list PyVal) :
  let after := deliver messages self in
  (exists more,
      correct_respondents after = correct_respondents self ++ more)
  /\ seen_users self ⊆ seen_users after
  /\ group_id after = group_id self
  /\ correct_answers after = correct_answers self
  /\ current_question_msg_id after = current_question_msg_id self
  /\ current_question_text after = current_question_text self
  /\ question_timestamp after = question_timestamp self
  /\ cutoff_timestamp after = cutoff_timestamp self
  /\ leaderboard_data after = leaderboard_data self.
Proof.
unfold deliver. revert self.
induction messages as [|m ms IH]; intros self; cbn [fold_left].
- split; [exists []; symmetry; apply app_nil_r|].
  split; [reflexivity|]. repeat split.
- destruct (IH (check_state self m))
    as ([more Hmore] & Hseen & -> & -> & -> & -> & -> & -> & ->).
  destruct (check_state_extends self m)
    as ([one Hone] & Hseen1 & -> & -> & -> & -> & -> & -> & ->).
  rewrite Hmore, Hone.
  split; [eexists; rewrite <- app_assoc; reflexivity|].
  split; [etransitivity; eassumption|]. repeat split.
Qed.

(** Every respondent of an open round answered inside its window, and
    the recorded response time is the distance to its opening. *)
Lemma deliver_timed self (messages : list PyVal) (opened cutoff : Z) :
  question_timestamp self = Some opened ->
  cutoff_timestamp self = Some cutoff ->
  Forall (fun w => opened <= timestamp w <= cutoff
                   /\ response_time w = timestamp w - opened)
    (correct_respondents self) ->
  Forall (fun w => opened <= timestamp w <= cutoff
                   /\ response_time w = timestamp w - opened)
    (correct_respondents (deliver messages self)).
Proof.
unfold deliver. revert self.
induction messages as [|m ms IH]; intros self Hopen Hcut Hall;
  cbn [fold_left]; [exact Hall|].
destruct (check_state_cases self m)
  as [-> | (d & t & opened' & sid & nm & _ & -> & Hon & _)];
  [apply IH; assumption|].
destruct Hon as (_ & _ & _ & _ & Hopen' & (cutoff' & Hcut' & Hle) & Hge & _).
rewrite Hopen in Hopen'. injection Hopen' as <-.
rewrite Hcut in Hcut'. injection Hcut' as <-.
apply IH; [exact Hopen | exact Hcut |].
cbn [record_answer correct_respondents].
apply Forall_app. split; [exact Hall|].
constructor; [|constructor]. cbn [timestamp response_time].
split; [split; assumption | reflexivity].
Qed.

(** In a round that [run_question] opened, every response time lies
    between zero and [QUESTION_DURATION], whatever messages arrived. *)
Theorem response_times_bounded (msg : Ack) (question : string)
    (opened : Z) (answers : list string) self (messages : list PyVal) :
  let round :=
    deliver messages
      (store_question msg question opened (reset_question answers self)) in
  Forall (fun w => opened <= timestamp w <= opened + QUESTION_DURATION
                   /\ response_time w = timestamp w - opened
                   /\ 0 <= response_time w <= QUESTION_DURATION)
    (correct_respondents round).
Proof.
intros round.
pose proof (deliver_timed
              (store_question msg question opened
                 (reset_question answers self))
              messages opened (opened + QUESTION_DURATION)
              eq_refl eq_refl (Forall_nil_2 _)) as H.
eapply Forall_impl; [exact H|].
intros w [[Hge Hle] Hrt]. cbn beta. rewrite Hrt. repeat split; lia.
Qed.

Lemma deliver_seen self (messages : list PyVal) :
  seen_users self = list_to_set (map user_id (correct_respondents self)) ->
  seen_users (deliver messages self)
  = list_to_set (map user_id (correct_respondents (deliver messages self))).
Proof.
unfold deliver. revert self.
induction messages as [|m ms IH]; intros self Hinv; cbn [fold_left];
  [exact Hinv|].
apply IH.
destruct (check_state_cases self m)
  as [-> | (d & t & opened & sid & nm & _ & -> & _)]; [exact Hinv|].
cbn [record_answer correct_respondents seen_users].
rewrite Hinv, map_app, list_to_set_app_L. cbn [map user_id].
cbn [list_to_set foldr]. rewrite (right_id_L ∅ (∪)). apply (comm_L (∪)).
Qed.

(** In a round that [run_question] started, [seen_users] is exactly the
    set of the respondents' user ids: nobody is marked as seen without
    having been recorded. *)
Theorem seen_users_are_respondents (msg : Ack) (question : string)
    (opened : Z) (answers : list string) self (messages : list PyVal) :
  let round :=
    deliver messages
      (store_question msg question opened (reset_question answers self)) in
  seen_users round = list_to_set (map user_id (correct_respondents round))
  /\ size (seen_users round) = length (correct_respondents round).
Proof.
intros round.
assert (Hseen : seen_users round
                = list_to_set (map user_id (correct_respondents round))).
{ apply deliver_seen. cbn. set_solver. }
split; [exact Hseen|].
assert (Hnd : winners_distinct round).
{ apply deliver_distinct; [apply NoDup_nil_2 | intros w []]. }
rewrite Hseen, size_list_to_set, length_map; [reflexivity | exact Hnd].
Qed.

Lemma check_state_first_id self (message : PyVal) :
  Py.truthy (first_correct_message_id self) = true ->
  first_correct_message_id (check_state self message)
  = first_correct_message_id self.
Proof.
intros Hset.
destruct (check_state_cases self message)
  as [-> | (d & t & opened & sid & nm & _ & -> & _)]; [reflexivity|].
cbn [record_answer first_correct_message_id]. rewrite Hset. reflexivity.
Qed.

Lemma deliver_first_id self (messages : list PyVal) :
  Py.truthy (first_correct_message_id self) = true ->
  first_correct_message_id (deliver messages self)
  = first_correct_message_id self.
Proof.
unfold deliver. revert self.
induction messages as [|m ms IH]; intros self Hset; [reflexivity|].
cbn [fold_left].
pose proof (check_state_first_id self m Hset) as Hstep.
rewrite IH; [exact Hstep|]. rewrite Hstep. exact Hset.
Qed.

(** Once [first_correct_message_id] holds a true value, no later message
    of the round replaces it. *)
Theorem first_correct_id_kept self (messages : list PyVal) :
  Py.truthy (first_correct_message_id self) = true ->
  first_correct_message_id (deliver messages self)
  = first_correct_message_id self.
Proof.
unfold deliver. revert self.
induction messages as [|m ms IH]; intros self Hset; cbn [fold_left];
  [reflexivity|].
rewrite IH; rewrite (check_state_first_id self m Hset);
  [reflexivity | exact Hset].
Qed.

Lemma first_correct_id_kept_witness :
  first_correct_message_id (deliver Sample.six_answers Sample.open_round)
  = VStr "msg0".
Proof.
change Sample.six_answers
  with ([Sample.message "Paris" 1001 "user0" "User0" "msg0"]
        ++ tl Sample.six_answers).
rewrite deliver_app. apply first_correct_id_kept. reflexivity.
Defined.

End RoundProgress.

(** ** The reveal *)

Section Reveal.

Implicit Types (self : Bot) (io : RoundIO).

#[local] Instance str_le_total : Total str_le.
Proof. intros a b. apply String.leb_total. Qed.

(** [sorted] gives the accepted answers, each once, in ascending order. *)
Lemma sorted_answers_sorted (answers : gset string) :
  Sorted str_le (sorted_answers answers)
  /\ NoDup (sorted_answers answers)
  /\ (forall a, a ∈ sorted_answers answers <-> a ∈ answers).
Proof.
unfold sorted_answers.
pose proof (merge_sort_Permutation str_le (elements answers)) as Hperm.
split; [apply (Sorted_merge_sort str_le)|]. split.
- rewrite Hperm. apply NoDup_elements.
- intros a. rewrite Hperm. apply elem_of_elements.
Qed.

Lemma deliver_no_winner_no_id self (messages : list PyVal) :
  (correct_respondents self = [] -> first_correct_message_id self = VNone) ->
  correct_respondents (deliver messages self) = [] ->
  first_correct_message_id (deliver messages self) = VNone.
Proof.
unfold deliver. revert self.
induction messages as [|m ms IH]; intros self Hinv; cbn [fold_left];
  [exact Hinv|].
apply IH.
destruct (check_state_cases self m)
  as [-> | (d & t & opened & sid & nm & _ & -> & _)]; [exact Hinv|].
cbn [record_answer correct_respondents]. intros H.
destruct (correct_respondents self); discriminate H.
Qed.

(** When no correct answer was recorded by the time of the reveal, the
    reveal sends the accepted answers of the round instead of quoting a
    message. *)
Theorem reveal_without_winner io (question : string)
    (answers : list string) self :
  correct_respondents (at_reveal io question answers self) = [] ->
  reveal_call (at_reveal io question answers self)
  = SendRep (list_to_set (map (fun a => str_strip (str_lower a)) answers)).
Proof.
unfold at_reveal, reveal_call.
set (start := store_question {| ack_id := opening_id io; ack_t := None |}
                question (opening_time io) (reset_question answers self)).
intros Hnone.
assert (Hstart : correct_respondents start = [] ->
                 first_correct_message_id start = VNone)
  by (intros _; reflexivity).
rewrite (deliver_no_winner_no_id start _ Hstart Hnone).
cbn [Py.truthy].
rewrite deliver_answers. reflexivity.
Qed.

Lemma reveal_without_winner_witness :
  reveal_call
    (at_reveal Sample.io_ok "Capital of France?"
       ["London"%string] (init Sample.group))
  = SendRep {["london"%string]}.
Proof.
rewrite reveal_without_winner; [|vm_compute; reflexivity].
f_equal.
Defined.

(** When no correct answer was recorded by the time of the reveal, the
    text that the reveal sends is "REP: " followed by the accepted answers
    of the round, each once, in ascending order, joined by " / ". *)
Theorem reveal_text_sorted io (question : string) (answers : list string)
    self :
  correct_respondents (at_reveal io question answers self) = [] ->
  let accepted_answers := correct_answers (reset_question answers self) in
  let listed := sorted_answers accepted_answers in
  call_text (reveal_call (at_reveal io question answers self))
  = "REP: " +:+ String.concat " / " listed
  /\ Sorted str_le listed
  /\ NoDup listed
  /\ (forall a, a ∈ listed <-> a ∈ accepted_answers).
Proof.
intros Hnone accepted_answers listed. split.
- unfold at_reveal, reveal_call in *.
  set (start := store_question {| ack_id := opening_id io; ack_t := None |}
                  question (opening_time io)
                  (reset_question answers self)) in *.
  assert (Hstart : correct_respondents start = [] ->
                   first_correct_message_id start = VNone)
    by (intros _; reflexivity).
  rewrite (deliver_no_winner_no_id start _ Hstart Hnone).
  cbn [Py.truthy call_text]. rewrite deliver_answers. reflexivity.
- apply sorted_answers_sorted.
Qed.

Lemma reveal_text_sorted_witness :
  call_text
    (reveal_call
       (at_reveal Sample.io_ok "Where is the Elizabeth Tower?"
          ["London"%string; "Big Ben"%string; "london "%string]
          (init Sample.group)))
  = "REP: big ben / london"%string.
Proof.
pose proof (reveal_text_sorted Sample.io_ok "Where is the Elizabeth Tower?"
              ["London"%string; "Big Ben"%string; "london "%string]
              (init Sample.group)) as H.
cbv zeta in H. destruct H as [H _]; [vm_compute; reflexivity|].
rewrite H. vm_compute. reflexivity.
Defined.

(** The reveal quotes the first accepted message: if the messages before
    it were all rejected and it carries an id, that id is what the reveal
    replies to, whatever arrives after it. *)
Theorem reveal_quotes_first_correct self (before after : list PyVal)
    (d : list (string * PyVal)) (t opened : Z) (sender_id : string)
    (sender_name : PyVal) :
  Py.truthy (first_correct_message_id self) = false ->
  deliver before self = self ->
  passes_all_checks self d t opened sender_id sender_name ->
  Py.truthy (Py.item d "id" VNone) = true ->
  reveal_call (deliver (before ++ VDict d :: after) self)
  = ReplyRep (Py.item d "id" VNone).
Proof.
intros Hunset Hbefore Hpass Hid.
rewrite deliver_app, Hbefore. unfold deliver at 1. cbn [fold_left].
fold (deliver after (check_state self (VDict d))).
assert (Hfirst : first_correct_message_id (check_state self (VDict d))
                 = Py.item d "id" VNone).
{ unfold check_state. rewrite (check_answer_accepts _ _ _ _ _ _ Hpass).
  cbn [fst record_answer first_correct_message_id]. rewrite Hunset.
  reflexivity. }
unfold reveal_call.
rewrite deliver_first_id; rewrite Hfirst; [|exact Hid].
rewrite Hid. reflexivity.
Qed.

Lemma reveal_quotes_first_correct_witness :
  reveal_call
    (deliver
       (Sample.message "London" 1002 "user9" "User9" "msg9"
        :: Sample.message "Paris" 1005 "user123" "TestUser" "msg123"
        :: Sample.six_answers)
       Sample.open_round)
  = ReplyRep (VStr "msg123").
Proof.
apply (reveal_quotes_first_correct Sample.open_round
         [Sample.message "London" 1002 "user9" "User9" "msg9"]
         Sample.six_answers
         (Sample.fields "Paris" 1005 "user123" "TestUser" "msg123")
         1005 1000 "user123" (VStr "TestUser"));
  [reflexivity | vm_compute; reflexivity | exact sample_passes
  | reflexivity].
Defined.

End Reveal.

(** ** Rounds *)

Section Rounds.

Implicit Types (self : Bot) (io : RoundIO).

(** The calls of a round in which every call returns. *)
Lemma run_question_calls io (question : string) (answers : list string)
    (is_last_question : bool) (question_number : Z) self :
  sends_ok io is_last_question = true ->
  snd (fst (run_question io question answers is_last_question
              question_number self))
  = [SendQuestion question_number question; SendStop;
     reveal_call (at_reveal io question answers self)]
    ++ (if is_last_question then [] else [SendNext]).
Proof.
pose proof (closed_deliver (io_setup io) (reset_question answers self)
              eq_refl) as [_ Hsetup].
destruct io as [q clock setup collect stop grace rep reveal advance nxt].
cbn [io_setup] in Hsetup.
unfold run_question, sends_ok, at_reveal, reveal_call, opening_time,
  opening_id, send_stop, send_rep, send_next.
cbn [io_question io_clock io_setup io_collect io_stop io_grace io_rep
     io_reveal io_advance io_next].
unfold m_bind, locked, sleep, read, send, m_ret. rewrite Hsetup.
rewrite deliver_app.
destruct q as [[qid qt]|], stop, rep, is_last_question;
  cbn [fst snd negb orb]; try discriminate.
all: try destruct nxt; cbn [fst snd negb orb]; try discriminate.
all: intros _; destruct (Py.truthy _); reflexivity.
Qed.

(** A round in which every call returns makes exactly these calls, in
    this order: the question, STOP, the reveal, and NEXT unless it is the
    last round. *)
Theorem round_calls io (question : string) (answers : list string)
    (is_last_question : bool) (question_number : Z) self :
  sends_ok io is_last_question = true ->
  let '(_, calls, _) :=
    run_question io question answers is_last_question question_number
      self in
  calls
  = [SendQuestion question_number question; SendStop;
     reveal_call (at_reveal io question answers self)]
    ++ (if is_last_question then [] else [SendNext]).
Proof.
intros Hok.
pose proof (run_question_calls io question answers is_last_question
              question_number self Hok) as H.
destruct (run_question io question answers is_last_question
            question_number self) as [[after calls] result].
exact H.
Qed.

Lemma round_calls_witness :
  snd (fst (run_question Sample.io_ok "Capital of France?"
              ["paris"%string; "france"%string] false 1
              (init Sample.group)))
  = [SendQuestion 1 "Capital of France?"; SendStop;
     ReplyRep (VStr "msg1"); SendNext].
Proof.
pose proof (round_calls Sample.io_ok "Capital of France?"
              ["paris"%string; "france"%string] false 1
              (init Sample.group) eq_refl) as H.
destruct (run_question Sample.io_ok "Capital of France?"
            ["paris"%string; "france"%string] false 1
            (init Sample.group)) as [[after calls] result].
cbn [fst snd]. rewrite H. vm_compute. reflexivity.
Defined.

(** After a round that is not the last and in which every call returned,
    no round is open and the per-question attributes are empty: until the
    next question is stored, every message is rejected. *)
Theorem closed_between_rounds io (question : string)
    (answers : list string) (question_number : Z) self
    (messages : list PyVal) :
  sends_ok io false = true ->
  let '(after, _, _) :=
    run_question io question answers false question_number self in
  question_timestamp after = None
  /\ cutoff_timestamp after = None
  /\ correct_answers after = ∅
  /\ correct_respondents after = []
  /\ seen_users after = ∅
  /\ first_correct_message_id after = VNone
  /\ current_question_text after = None
  /\ deliver messages after = after.
Proof.
intros Hok.
pose proof (run_question_result io question answers false question_number
              self) as H.
destruct (run_question io question answers false question_number self)
  as [[after calls] result].
rewrite Hok in H. destruct H as [_ ->].
repeat split. apply closed_deliver. reflexivity.
Qed.

Lemma closed_between_rounds_witness :
  let after :=
    fst (fst (run_question Sample.io_ok "Capital of France?"
                ["paris"%string; "france"%string] false 1
                (init Sample.group))) in
  correct_respondents after = []
  /\ deliver Sample.six_answers after = after.
Proof.
intros after. subst after.
pose proof (closed_between_rounds Sample.io_ok "Capital of France?"
              ["paris"%string; "france"%string] 1 (init Sample.group)
              Sample.six_answers eq_refl) as H.
destruct (run_question Sample.io_ok "Capital of France?"
            ["paris"%string; "france"%string] false 1
            (init Sample.group)) as [[after calls] result].
cbn [fst]. split; apply H.
Defined.

Lemma deliver_window self (messages : list PyVal) :
  question_timestamp (deliver messages self) = question_timestamp self
  /\ cutoff_timestamp (deliver messages self) = cutoff_timestamp self.
Proof.
unfold deliver. revert self.
induction messages as [|m ms IH]; intros self; cbn [fold_left];
  [split; reflexivity|].
destruct (IH (check_state self m)) as [-> ->].
destruct (check_state_extends self m)
  as (_ & _ & _ & _ & _ & _ & -> & -> & _).
split; reflexivity.
Qed.

(** The last round is not cleared: after it the round is still open with
    its window and its respondents, so a message inside the window that
    is handled later is still recorded; the entry already written to the
    leaderboard holds its own copy and does not change. *)
Theorem last_round_stays_open io (question : string)
    (answers : list string) (question_number : Z) self
    (messages : list PyVal) :
  sends_ok io true = true ->
  let '(after, _, _) :=
    run_question io question answers true question_number self in
  question_timestamp after = Some (opening_time io)
  /\ cutoff_timestamp after = Some (opening_time io + QUESTION_DURATION)
  /\ correct_respondents after
     = round_winners io question answers true self
  /\ leaderboard_data (deliver messages after) = leaderboard_data after.
Proof.
intros Hok.
pose proof (run_question_result io question answers true question_number
              self) as H.
destruct (run_question io question answers true question_number self)
  as [[after calls] result].
rewrite Hok in H. destruct H as [_ ->].
unfold round_winners.
cbn [record_round question_timestamp cutoff_timestamp correct_respondents].
unfold at_finish.
set (start := store_question {| ack_id := opening_id io; ack_t := None |}
                question (opening_time io) (reset_question answers self)).
destruct (deliver_window start (round_arrivals io true)) as [Hq Hc].
rewrite Hq, Hc.
split; [reflexivity|]. split; [reflexivity|]. split; [reflexivity|].
apply deliver_frame.
Qed.

Lemma last_round_stays_open_witness :
  let after :=
    fst (fst (run_question Sample.io_ok "Capital of France?"
                ["paris"%string; "france"%string] true 1
                (init Sample.group))) in
  question_timestamp after = Some 1000
  /\ length (correct_respondents (deliver Sample.six_answers after)) = 5%nat
  /\ map (fun e => length (winners e))
       (leaderboard_data (deliver Sample.six_answers after))
     = [1%nat].
Proof.
intros after. subst after.
pose proof (last_round_stays_open Sample.io_ok "Capital of France?"
              ["paris"%string; "france"%string] 1 (init Sample.group)
              Sample.six_answers eq_refl) as H.
destruct (run_question Sample.io_ok "Capital of France?"
            ["paris"%string; "france"%string] true 1
            (init Sample.group)) as [[after calls] result] eqn:Hrun.
cbn [fst]. destruct H as (Hq & _ & _ & Hboard).
split; [exact Hq|]. rewrite Hboard.
assert (Hafter : after = fst (fst (run_question Sample.io_ok
                                     "Capital of France?"
                                     ["paris"%string; "france"%string]
                                     true 1 (init Sample.group))))
  by (rewrite Hrun; reflexivity).
rewrite Hafter. split; vm_compute; reflexivity.
Defined.

End Rounds.

(** ** The game and its leaderboard *)

Section Game.

Implicit Types (self : Bot) (io : RoundIO)
  (rounds : list (string * list string * RoundIO)).

Lemma at_finish_entry io (question : string) (answers : list string)
    (is_last_question : bool) self :
  entry_ok
    {| question_text := Some question;
       winners := round_winners io question answers is_last_question self |}.
Proof.
unfold entry_ok, round_winners, at_finish. cbn [winners]. split.
- apply deliver_length. cbn. lia.
- apply deliver_distinct; [apply NoDup_nil_2 | intros w []].
Qed.

(** What the loop of [main] leaves behind, from any state and index. *)
Lemma run_questions_entries (total i : Z) rounds self :
  match run_questions total i rounds self with
  | (after, calls, result) =>
      exists entries,
        leaderboard_data after = leaderboard_data self ++ entries
        /\ map question_text entries
           = map (fun r => Some (fst (fst r)))
               (completed_rounds total i rounds)
        /\ Forall entry_ok entries
        /\ result
           = (if (length (completed_rounds total i rounds)
                  =? length rounds)%nat
              then Ret tt else Raise GatewayError)
  end.
Proof.
revert i self.
induction rounds as [|[[question answers] io] rest IH]; intros i self.
- cbn. exists []. rewrite app_nil_r. repeat split. constructor.
- cbn [run_questions completed_rounds]. unfold m_bind.
  pose proof (run_question_result io question answers (i =? total) i self)
    as Hround.
  destruct (run_question io question answers (i =? total) i self)
    as [[after1 calls1] result1].
  destruct (sends_ok io (i =? total)).
  + destruct Hround as [-> Hafter].
    specialize (IH (i + 1) after1).
    destruct (run_questions total (i + 1) rest after1)
      as [[after2 calls2] result2].
    destruct IH as (entries & Hboard & Htexts & Hok & Hres).
    exists ({| question_text := Some question;
               winners := round_winners io question answers (i =? total)
                            self |} :: entries).
    assert (Hone : leaderboard_data after1
                   = leaderboard_data self ++
                     [{| question_text := Some question;
                         winners := round_winners io question answers
                                      (i =? total) self |}]).
    { rewrite Hafter. unfold round_winners.
      destruct (i =? total);
        cbn [clear_question record_round leaderboard_data];
        destruct (at_finish_frame io question answers true self)
          as [E1 E2];
        destruct (at_finish_frame io question answers false self)
          as [E3 E4];
        rewrite ?E1, ?E2, ?E3, ?E4; reflexivity. }
    rewrite Hboard, Hone, <- app_assoc. cbn [app map length fst].
    split; [reflexivity|]. split; [rewrite Htexts; reflexivity|].
    split; [constructor; [apply at_finish_entry | exact Hok]|].
    exact Hres.
  + destruct Hround as [-> Hboard]. exists [].
    rewrite app_nil_r. cbn [map length]. repeat split;
      [exact Hboard | constructor].
Qed.

(** After [main], the leaderboard holds one entry for each round that ran
    to its end, in the order of the questions and with their texts; and
    [main] ends normally exactly when every round did. *)
Theorem main_records_completed_rounds (group : string) rounds :
  let total := Z.of_nat (length rounds) in
  let '(after, _, result) := main group rounds in
  map question_text (leaderboard_data after)
  = map (fun r => Some (fst (fst r))) (completed_rounds total 1 rounds)
  /\ result
     = (if (length (completed_rounds total 1 rounds) =? length rounds)%nat
        then Ret tt else Raise GatewayError).
Proof.
intros total. unfold main. fold total.
pose proof (run_questions_entries total 1 rounds (init group)) as H.
destruct (run_questions total 1 rounds (init group))
  as [[after calls] result].
destruct H as (entries & Hboard & Htexts & _ & Hres).
cbn [init leaderboard_data app] in Hboard. rewrite Hboard.
split; assumption.
Qed.

(** Every entry that [main] leaves in the leaderboard has at most five
    winners, with pairwise distinct user ids. *)
Theorem leaderboard_entries_bounded (group : string) rounds :
  let '(after, _, _) := main group rounds in
  Forall (fun e => (length (winners e) <= 5)%nat
                   /\ NoDup (map user_id (winners e)))
    (leaderboard_data after).
Proof.
unfold main.
pose proof (run_questions_entries (Z.of_nat (length rounds)) 1 rounds
              (init group)) as H.
destruct (run_questions (Z.of_nat (length rounds)) 1 rounds (init group))
  as [[after calls] result].
destruct H as (entries & Hboard & _ & Hok & _).
cbn [init leaderboard_data app] in Hboard. rewrite Hboard. exact Hok.
Qed.

End Game.

(** ** The leaderboard file *)

Section CsvFacts.

Variable format_time : Z -> string.
Variable format_seconds : Z -> string.

Lemma winner_cells_lookup (ws : list Respondent) (rest : list string)
    (j : nat) (w : Respondent) :
  ws !! j = Some w ->
  forall k, (k < 3)%nat ->
  (flat_map (winner_cells format_time format_seconds) ws ++ rest)
    !! (3 * j + k)%nat
  = winner_cells format_time format_seconds w !! k.
Proof.
revert j. induction ws as [|w0 ws IH]; intros j Hj k Hk; [discriminate Hj|].
destruct j as [|j].
- injection Hj as ->.
  destruct k as [|[|[|k]]]; [reflexivity | reflexivity | reflexivity | lia].
- replace (3 * S j + k)%nat with (S (S (S (3 * j + k)))) by lia.
  cbn [flat_map winner_cells app lookup list_lookup].
  apply IH; assumption.
Qed.

Lemma csv_row_length (entry : Entry) :
  length (csv_row format_time format_seconds entry)
  = Nat.max 16 (1 + 3 * length (winners entry)).
Proof.
unfold csv_row, pad_row.
rewrite length_app, length_replicate. cbn [length].
assert (H : length (flat_map (winner_cells format_time format_seconds)
                      (winners entry))
            = (3 * length (winners entry))%nat).
{ induction (winners entry) as [|w ws IH]; [reflexivity|].
  cbn [flat_map winner_cells app length]. rewrite IH. lia. }
rewrite H. lia.
Qed.

(** A row of the leaderboard file starts with the question (an empty
    cell when there is none); the winner number [j] (from zero) fills
    columns [3 * j + 1] to [3 * j + 3] with name, time and response time;
    every column after the last winner, up to the sixteenth, is an empty
    cell; and the row is longer than sixteen columns only if the entry
    has more than five winners. *)
Theorem csv_row_layout (entry : Entry) :
  let row := csv_row format_time format_seconds entry in
  let n := length (winners entry) in
  length row = Nat.max 16 (1 + 3 * n)
  /\ row !! 0%nat
     = Some (match question_text entry with
             | Some q => q
             | None => EmptyString
             end)
  /\ (forall j w,
        winners entry !! j = Some w ->
        row !! (3 * j + 1)%nat = Some (csv_cell (name w))
        /\ row !! (3 * j + 2)%nat = Some (format_time (timestamp w))
        /\ row !! (3 * j + 3)%nat
           = Some (format_seconds (response_time w)))
  /\ (forall i,
        (3 * n < i)%nat -> (i < 16)%nat -> row !! i = Some EmptyString).
Proof.
intros row n. subst row n.
split; [apply csv_row_length|]. split; [reflexivity|].
unfold csv_row, pad_row.
set (q := match question_text entry with
          | Some q => q
          | None => EmptyString
          end).
assert (Hlen : length (q :: flat_map (winner_cells format_time
                                        format_seconds) (winners entry))
               = (1 + 3 * length (winners entry))%nat).
{ cbn [length]. f_equal.
  induction (winners entry) as [|w ws IH]; [reflexivity|].
  cbn [flat_map winner_cells app length]. rewrite IH. lia. }
split.
- intros j w Hj. set (pad := replicate _ EmptyString).
  assert (H : forall k, (k < 3)%nat ->
              (q :: flat_map (winner_cells format_time format_seconds)
                      (winners entry) ++ pad) !! S (3 * j + k)
              = winner_cells format_time format_seconds w !! k).
  { intros k Hk.
    exact (winner_cells_lookup (winners entry) pad j w Hj k Hk). }
  replace (3 * j + 1)%nat with (S (3 * j + 0)) by lia.
  replace (3 * j + 2)%nat with (S (3 * j + 1)) by lia.
  replace (3 * j + 3)%nat with (S (3 * j + 2)) by lia.
  change ((q :: flat_map (winner_cells format_time format_seconds)
                   (winners entry)) ++ pad)
    with (q :: flat_map (winner_cells format_time format_seconds)
                 (winners entry) ++ pad).
  rewrite (H 0%nat), (H 1%nat), (H 2%nat) by lia.
  repeat split.
- intros i Hlow Hhigh.
  rewrite lookup_app_r by (rewrite Hlen; lia).
  apply lookup_replicate_2. rewrite Hlen. lia.
Qed.

(** Every row written after a game, header included, has exactly sixteen
    columns, and there is one row for each round that ran to its end. *)
Theorem csv_rows_sixteen_columns (group : string)
    (rounds : list (string * list string * RoundIO)) :
  let '(after, _, _) := main group rounds in
  let rows := csv_rows format_time format_seconds after in
  Forall (fun row => length row = 16%nat) rows
  /\ length rows
     = S (length (completed_rounds (Z.of_nat (length rounds)) 1 rounds)).
Proof.
unfold main.
pose proof (run_questions_entries (Z.of_nat (length rounds)) 1 rounds
              (init group)) as H.
destruct (run_questions (Z.of_nat (length rounds)) 1 rounds (init group))
  as [[after calls] result].
destruct H as (entries & Hboard & Htexts & Hok & _).
cbn [init leaderboard_data app] in Hboard.
unfold csv_rows. rewrite Hboard. split.
- constructor; [reflexivity|].
  apply Forall_map. eapply Forall_impl; [exact Hok|].
  intros e [Hlen _]. cbn beta. rewrite csv_row_length. lia.
- cbn [length]. rewrite length_map.
  rewrite <- (length_map question_text entries), Htexts, length_map.
  reflexivity.
Qed.

End CsvFacts.

Lemma csv_row_layout_witness :
  let alice := {| user_id := "a"; name := VStr "Alice";
                  timestamp := 1234567890; response_time := 2 |} in
  let bob := {| user_id := "b"; name := VStr "Bob";
                timestamp := 1234567892; response_time := 4 |} in
  let row :=
    csv_row pretty pretty
      {| question_text := Some "What is 2+2?"%string;
         winners := [alice; bob] |} in
  let quiet :=
    csv_row pretty pretty
      {| question_text := Some "Unanswered?"%string; winners := [] |} in
  length row = 16%nat
  /\ row !! 0%nat = Some "What is 2+2?"%string
  /\ row !! 1%nat = Some "Alice"%string
  /\ row !! 4%nat = Some "Bob"%string
  /\ row !! 7%nat = Some EmptyString
  /\ length quiet = 16%nat
  /\ quiet !! 1%nat = Some EmptyString
  /\ quiet !! 15%nat = Some EmptyString.
Proof.
intros alice bob row quiet.
pose proof (csv_row_layout pretty pretty
              {| question_text := Some "What is 2+2?"%string;
                 winners := [alice; bob] |}) as (H0 & H1 & Hw & Hpad).
pose proof (csv_row_layout pretty pretty
              {| question_text := Some "Unanswered?"%string;
                 winners := [] |}) as (Q0 & _ & _ & Qpad).
cbn [winners length] in Hpad, Qpad.
split; [exact H0|]. split; [exact H1|].
split; [exact (proj1 (Hw 0%nat alice eq_refl))|].
split; [exact (proj1 (Hw 1%nat bob eq_refl))|].
split; [apply Hpad; lia|].
split; [exact Q0|].
split; apply Qpad; lia.
Defined.

(** ** Matching *)

Section Matching.

Implicit Types (l : list ascii) (self : Bot).

(** Two messages that differ only in their bodies are handled alike as
    soon as the bodies have the same normal form: same state, same log
    line. *)
Theorem matching_by_normal_form self (d : list (string * PyVal))
    (body1 body2 : PyVal) :
  normalize body1 = normalize body2 ->
  check_answer self (VDict (("body"%string, body1) :: d))
  = check_answer self (VDict (("body"%string, body2) :: d)).
Proof.
intros H.
unfold check_answer, check_answer_body, sender_of.
cbn [Py.get res_bind Py.truthy negb].
unfold Py.item. cbn [Py.lookup].
change (String.eqb "fromMe" "body") with false.
change (String.eqb "isGroupMsg" "body") with false.
change (String.eqb "from" "body") with false.
change (String.eqb "body" "body") with true.
change (String.eqb "t" "body") with false.
change (String.eqb "sender" "body") with false.
change (String.eqb "id" "body") with false.
cbv iota. rewrite H. reflexivity.
Qed.

Lemma matching_by_normal_form_witness :
  check_answer Sample.open_round
    (VDict (("body"%string, VStr "  PARIS !!")
            :: Sample.fields "x" 1005 "user123" "TestUser" "msg1"))
  = check_answer Sample.open_round
      (VDict (("body"%string, VStr "paris")
              :: Sample.fields "x" 1005 "user123" "TestUser" "msg1")).
Proof.
apply matching_by_normal_form. reflexivity.
Defined.

End Matching.

(** ** Loading answers *)

Section Loading.

Implicit Types (l : list ascii).

Example load_answers_examples :
  load_answers "4|four" = {["4"%string; "four"%string]}
  /\ load_answers " Answer1 || answer2 "
     = {["answer1"%string; "answer2"%string]}
  /\ load_answers EmptyString = ∅.
Proof. repeat split; vm_compute; reflexivity. Qed.

(** Splitting at a separator loses nothing: no piece holds the
    separator, and joining the pieces with it gives the text back. *)
Lemma split_join (sep : ascii) l :
  join_with sep (split_on sep l) = l
  /\ Forall (fun piece => ~ In sep piece) (split_on sep l)
  /\ split_on sep l <> [].
Proof.
unfold split_on. induction l as [|c l (IHjoin & IHall & IHne)].
- split; [reflexivity|]. split; [|discriminate].
  constructor; [intros []|constructor].
- cbn [split_where]. destruct (Ascii.eqb c sep) eqn:Hc.
  + apply Ascii.eqb_eq in Hc. subst c.
    split; [|split; [|discriminate]].
    * cbn [join_with].
      destruct (split_where (fun c => Ascii.eqb c sep) l) as [|w ws];
        [contradiction|].
      cbn [app]. rewrite IHjoin. reflexivity.
    * constructor; [intros []|exact IHall].
  + apply Ascii.eqb_neq in Hc.
    destruct (split_where (fun c => Ascii.eqb c sep) l) as [|w ws];
      [contradiction|].
    split; [|split; [|discriminate]].
    * cbn [join_with] in *. destruct ws; cbn [app]; rewrite <- IHjoin;
        reflexivity.
    * inversion IHall as [|? ? Hw Hws]; subst.
      constructor; [|exact Hws].
      intros [Heq | Hin]; [congruence | exact (Hw Hin)].
Qed.

End Loading.

(** ** [normalize] over the character tables *)

Section StrFacts.

Context {char : Type} (T : Str.Tables char).

Implicit Types (t : list char) (r : bool).

(** *** Which characters a stage can produce *)

Lemma str_remove_Forall (P : char -> Prop) t :
  Forall P t -> Forall P (Str.remove_non_word T t).
Proof.
unfold Str.remove_non_word.
induction 1 as [|c t Hc Ht IH]; cbn [List.filter]; [constructor|].
destruct (Str.is_word T c || Str.is_space T c); auto.
Qed.

Lemma str_sub_spaces_Forall (P : char -> Prop) r t :
  P (Str.space T) -> Forall P t -> Forall P (Str.sub_spaces T r t).
Proof.
intros Hsp Ht. revert r.
induction Ht as [|c t Hc Ht IH]; intros r; cbn [Str.sub_spaces];
  [constructor|].
destruct (Str.is_space T c); [destruct r|]; auto.
Qed.

Lemma str_lstrip_Forall (P : char -> Prop) t :
  Forall P t -> Forall P (Str.lstrip T t).
Proof.
induction 1 as [|c t Hc Ht IH]; cbn [Str.lstrip]; [constructor|].
destruct (Str.is_space T c); auto.
Qed.

Lemma str_rstrip_Forall (P : char -> Prop) t :
  Forall P t -> Forall P (Str.rstrip T t).
Proof.
induction 1 as [|c t Hc Ht IH]; cbn [Str.rstrip]; [constructor|].
destruct (Str.is_space T c && Str.is_nil (Str.rstrip T t)); auto.
Qed.

Lemma str_strip_Forall (P : char -> Prop) t :
  Forall P t -> Forall P (Str.strip T t).
Proof. intros H. apply str_rstrip_Forall, str_lstrip_Forall, H. Qed.

Lemma str_remove_kept t :
  Forall (fun c => Str.is_word T c || Str.is_space T c = true)
    (Str.remove_non_word T t).
Proof.
unfold Str.remove_non_word. apply List.Forall_forall. intros c Hc.
apply filter_In in Hc. apply Hc.
Qed.

(** *** Texts that a stage leaves alone *)

Lemma str_remove_fixed t :
  Forall (fun c => Str.is_word T c || Str.is_space T c = true) t ->
  Str.remove_non_word T t = t.
Proof.
unfold Str.remove_non_word.
induction 1 as [|c t Hc Ht IH]; cbn [List.filter]; [reflexivity|].
rewrite Hc, IH. reflexivity.
Qed.

Lemma str_collapsed_sub_spaces r t :
  Str.is_space T (Str.space T) = true ->
  Str.collapsed T r (Str.sub_spaces T r t).
Proof.
intros Hsp. revert r.
induction t as [|c t IH]; intros r; cbn [Str.sub_spaces]; [exact I|].
destruct (Str.is_space T c) eqn:Hs.
- destruct r; [apply IH|]. cbn [Str.collapsed]. rewrite Hsp.
  split; [reflexivity|]. split; [reflexivity | apply IH].
- cbn [Str.collapsed]. rewrite Hs. apply IH.
Qed.

Lemma str_sub_spaces_fixed r t :
  Str.collapsed T r t -> Str.sub_spaces T r t = t.
Proof.
revert r. induction t as [|c t IH]; intros r; cbn [Str.sub_spaces
  Str.collapsed]; [reflexivity|].
destruct (Str.is_space T c).
- intros (-> & -> & Ht). rewrite (IH true Ht). reflexivity.
- intros Ht. rewrite (IH false Ht). reflexivity.
Qed.

Lemma str_collapsed_lstrip r t :
  Str.collapsed T r t -> Str.collapsed T false (Str.lstrip T t).
Proof.
revert r. induction t as [|c t IH]; intros r; [intros _; exact I|].
cbn [Str.lstrip]. destruct (Str.is_space T c) eqn:Hs.
- cbn [Str.collapsed]. rewrite Hs. intros (_ & _ & Ht). apply (IH true Ht).
- cbn [Str.collapsed]. rewrite Hs. intros Ht. exact Ht.
Qed.

Lemma str_collapsed_rstrip r t :
  Str.collapsed T r t -> Str.collapsed T r (Str.rstrip T t).
Proof.
revert r. induction t as [|c t IH]; intros r; [intros _; exact I|].
cbn [Str.rstrip Str.collapsed]. destruct (Str.is_space T c) eqn:Hs.
- intros (Hc & Hr & Ht). cbn [andb].
  destruct (Str.is_nil (Str.rstrip T t)); [exact I|].
  cbn [Str.collapsed]. rewrite Hs.
  split; [exact Hc|]. split; [exact Hr | apply (IH true Ht)].
- intros Ht. cbn [andb Str.collapsed]. rewrite Hs. apply (IH false Ht).
Qed.

Lemma str_collapsed_spaces r t :
  Str.collapsed T r t ->
  Forall (fun c => Str.is_space T c = true -> c = Str.space T) t.
Proof.
revert r. induction t as [|c t IH]; intros r; [constructor|].
cbn [Str.collapsed]. destruct (Str.is_space T c) eqn:Hs.
- intros (Hc & _ & Ht). constructor; [intros _; exact Hc | apply (IH _ Ht)].
- intros Ht. constructor; [intros H; congruence | apply (IH _ Ht)].
Qed.

Lemma str_starts_clean_lstrip t :
  Str.starts_clean T (Str.lstrip T t) = true.
Proof.
induction t as [|c t IH]; cbn [Str.lstrip]; [reflexivity|].
destruct (Str.is_space T c) eqn:Hs; [exact IH|].
cbn [Str.starts_clean]. rewrite Hs. reflexivity.
Qed.

Lemma str_lstrip_fixed t :
  Str.starts_clean T t = true -> Str.lstrip T t = t.
Proof.
destruct t as [|c t]; cbn [Str.starts_clean Str.lstrip]; [reflexivity|].
intros H. apply negb_true_iff in H. rewrite H. reflexivity.
Qed.

Lemma str_starts_clean_rstrip t :
  Str.starts_clean T t = true -> Str.starts_clean T (Str.rstrip T t) = true.
Proof.
destruct t as [|c t]; cbn [Str.starts_clean Str.rstrip]; [reflexivity|].
intros H. apply negb_true_iff in H. rewrite H. cbn [andb Str.starts_clean].
rewrite H. reflexivity.
Qed.

Lemma str_rstrip_rstrip t : Str.rstrip T (Str.rstrip T t) = Str.rstrip T t.
Proof.
induction t as [|c t IH]; cbn [Str.rstrip]; [reflexivity|].
destruct (Str.is_space T c && Str.is_nil (Str.rstrip T t)) eqn:H;
  [reflexivity|].
cbn [Str.rstrip]. rewrite IH, H. reflexivity.
Qed.

Lemma str_strip_fixed t :
  Str.starts_clean T t = true ->
  Str.rstrip T t = t ->
  Str.strip T t = t.
Proof.
intros Hstart Hend. unfold Str.strip.
rewrite (str_lstrip_fixed t Hstart). exact Hend.
Qed.


(** *** What is left besides whitespace *)

Lemma str_visible_sub_spaces r t :
  Str.is_space T (Str.space T) = true ->
  List.filter (fun c => negb (Str.is_space T c)) (Str.sub_spaces T r t)
  = List.filter (fun c => negb (Str.is_space T c)) t.
Proof.
intros Hsp. revert r.
induction t as [|c t IH]; intros r; cbn [Str.sub_spaces List.filter];
  [reflexivity|].
destruct (Str.is_space T c) eqn:Hs; cbn [negb].
- destruct r; [apply IH|]. cbn [List.filter]. rewrite Hsp. cbn [negb].
  apply IH.
- cbn [List.filter]. rewrite Hs. cbn [negb]. rewrite IH. reflexivity.
Qed.

Lemma str_visible_lstrip t :
  List.filter (fun c => negb (Str.is_space T c)) (Str.lstrip T t)
  = List.filter (fun c => negb (Str.is_space T c)) t.
Proof.
induction t as [|c t IH]; cbn [Str.lstrip]; [reflexivity|].
destruct (Str.is_space T c) eqn:Hs; [|reflexivity].
cbn [List.filter]. rewrite Hs. exact IH.
Qed.

Lemma str_visible_rstrip t :
  List.filter (fun c => negb (Str.is_space T c)) (Str.rstrip T t)
  = List.filter (fun c => negb (Str.is_space T c)) t.
Proof.
induction t as [|c t IH]; cbn [Str.rstrip]; [reflexivity|].
cbn [List.filter]. destruct (Str.is_space T c) eqn:Hs; cbn [andb negb].
- rewrite <- IH.
  destruct (Str.rstrip T t); cbn [Str.is_nil]; [reflexivity|].
  cbn [List.filter]. rewrite Hs. reflexivity.
- cbn [List.filter]. rewrite Hs. cbn [negb]. rewrite IH. reflexivity.
Qed.

Lemma str_normalize_visible t :
  Str.is_space T (Str.space T) = true ->
  List.filter (fun c => negb (Str.is_space T c)) (Str.normalize_text T t)
  = List.filter (fun c => negb (Str.is_space T c))
      (Str.remove_non_word T (Str.lower T t)).
Proof.
intros Hsp. unfold Str.normalize_text, Str.strip.
rewrite str_visible_rstrip, str_visible_lstrip.
apply str_visible_sub_spaces, Hsp.
Qed.

(** *** The shape of a normalised text *)

Lemma str_normalize_collapsed t :
  Str.is_space T (Str.space T) = true ->
  Str.collapsed T false (Str.normalize_text T t).
Proof.
intros Hsp. unfold Str.normalize_text, Str.strip.
apply str_collapsed_rstrip, (str_collapsed_lstrip false).
apply str_collapsed_sub_spaces, Hsp.
Qed.

Lemma str_normalize_starts_clean t :
  Str.starts_clean T (Str.normalize_text T t) = true.
Proof.
unfold Str.normalize_text, Str.strip.
apply str_starts_clean_rstrip, str_starts_clean_lstrip.
Qed.

Lemma str_normalize_kept t :
  Str.is_space T (Str.space T) = true ->
  Forall (fun c => Str.is_word T c || Str.is_space T c = true)
    (Str.normalize_text T t).
Proof.
intros Hsp. unfold Str.normalize_text.
apply str_strip_Forall, str_sub_spaces_Forall.
- rewrite Hsp. apply orb_true_r.
- apply str_remove_kept.
Qed.

Lemma str_normalize_lowercase t :
  Str.Laws T ->
  Forall (fun c => Str.lowercase T c = true) (Str.normalize_text T t).
Proof.
intros HT. unfold Str.normalize_text.
apply str_strip_Forall, str_sub_spaces_Forall.
- apply (Str.law_space_lowercase T HT).
- apply str_remove_Forall, (Str.law_lower_lowercase T HT).
Qed.

End StrFacts.

(** *** The ASCII tables *)

Lemma ascii_laws : Str.Laws ascii_tables.
Proof.
constructor.
- reflexivity.
- reflexivity.
- intros t. apply List.Forall_forall. intros c Hc.
  apply in_map_iff in Hc as (c' & <- & _).
  cbn. rewrite lower_not_upper. reflexivity.
- intros t Ht. cbn [ascii_tables Str.lower]. unfold Text.lower.
  induction Ht as [|c t Hc Ht IH]; [reflexivity|].
  cbn [map]. cbn in Hc. apply negb_true_iff in Hc.
  rewrite (not_upper_lower c Hc), IH. reflexivity.
Qed.

(** [normalize] of the message handler is [Str.normalize] over the ASCII
    tables. *)
Lemma normalize_ascii_instance (v : PyVal) :
  list_ascii_of_string (normalize v) = Str.normalize ascii_tables (as_text v).
Proof.
destruct v; try reflexivity.
cbn [as_text Str.normalize]. rewrite chars_of_normalize. reflexivity.
Qed.

(** *** The claims about [normalize] *)

(** C9.  [normalize] is idempotent on every input, a text or not:
    normalising its own result changes nothing.  The characters are those
    of any tables with the properties of [Str.Laws]; [lower] acts on the
    whole text and need not be a map over characters. *)
Theorem normalize_idempotent {char : Type} (T : Str.Tables char)
    (x : option (list char)) :
  Str.Laws T ->
  Str.normalize T (Some (Str.normalize T x)) = Str.normalize T x.
Proof.
intros HT.
assert (Hfixed : forall t,
           Forall (fun c => Str.lowercase T c = true) t ->
           Forall (fun c => Str.is_word T c || Str.is_space T c = true) t ->
           Str.collapsed T false t ->
           Str.starts_clean T t = true ->
           Str.rstrip T t = t ->
           Str.normalize_text T t = t).
{ intros t Hlow Hkept Hcol Hstart Hend. unfold Str.normalize_text.
  rewrite (Str.law_lowercase_fixed T HT t Hlow).
  rewrite (str_remove_fixed T t Hkept).
  rewrite (str_sub_spaces_fixed T false t Hcol).
  apply str_strip_fixed; assumption. }
destruct x as [t|]; cbn [Str.normalize].
- apply Hfixed.
  + apply str_normalize_lowercase, HT.
  + apply str_normalize_kept, (Str.law_space T HT).
  + apply str_normalize_collapsed, (Str.law_space T HT).
  + apply str_normalize_starts_clean.
  + unfold Str.normalize_text, Str.strip. apply str_rstrip_rstrip.
- apply Hfixed; (constructor || exact I || reflexivity).
Qed.

Lemma normalize_idempotent_witness :
  let text := list_ascii_of_string "  Hello,   World! " in
  Str.normalize ascii_tables (Some text) = list_ascii_of_string "hello world"
  /\ Str.normalize ascii_tables
       (Some (Str.normalize ascii_tables (Some text)))
     = Str.normalize ascii_tables (Some text).
Proof.
intros text. split; [reflexivity|].
apply (normalize_idempotent ascii_tables (Some text) ascii_laws).
Defined.

(** The result of [normalize] has no whitespace at its ends, and its
    only whitespace is single spaces: stripping it or collapsing its
    whitespace changes nothing, and every whitespace character in it is
    the space. *)
Theorem normalize_trimmed_single_spaced {char : Type} (T : Str.Tables char)
    (t : list char) :
  Str.Laws T ->
  let result := Str.normalize_text T t in
  Str.strip T result = result
  /\ Str.sub_spaces T false result = result
  /\ Forall (fun c => Str.is_space T c = true -> c = Str.space T) result.
Proof.
intros HT result. subst result.
pose proof (str_normalize_collapsed T t (Str.law_space T HT)) as Hcol.
split; [|split].
- apply str_strip_fixed; [apply str_normalize_starts_clean|].
  unfold Str.normalize_text, Str.strip. apply str_rstrip_rstrip.
- apply str_sub_spaces_fixed, Hcol.
- apply (str_collapsed_spaces T false), Hcol.
Qed.

Lemma normalize_trimmed_single_spaced_witness :
  let result :=
    Str.normalize_text ascii_tables
      (list_ascii_of_string "  Hello,   World! ") in
  result = list_ascii_of_string "hello world"
  /\ Str.strip ascii_tables result = result
  /\ Str.sub_spaces ascii_tables false result = result.
Proof.
intros result. split; [reflexivity|].
pose proof (normalize_trimmed_single_spaced ascii_tables
              (list_ascii_of_string "  Hello,   World! ") ascii_laws)
  as (H1 & H2 & _).
split; [exact H1 | exact H2].
Defined.

(** [normalize] gives the empty text exactly when the lower-cased text
    has no word character, given that no word character is whitespace. *)
Theorem normalize_empty_iff {char : Type} (T : Str.Tables char)
    (t : list char) :
  Str.Laws T ->
  (forall c, Str.is_word T c = true -> Str.is_space T c = false) ->
  Str.normalize_text T t = []
  <-> List.filter (Str.is_word T) (Str.lower T t) = [].
Proof.
intros HT Hdisjoint.
pose proof (str_normalize_visible T t (Str.law_space T HT)) as Hvis.
assert (Hword : forall l,
           List.filter (fun c => negb (Str.is_space T c))
             (Str.remove_non_word T l)
           = List.filter (Str.is_word T) l).
{ unfold Str.remove_non_word.
  induction l as [|c l IH]; cbn [List.filter]; [reflexivity|].
  destruct (Str.is_word T c) eqn:Hw; cbn [orb].
  - cbn [List.filter]. rewrite (Hdisjoint c Hw). cbn [negb].
    rewrite IH. reflexivity.
  - destruct (Str.is_space T c) eqn:Hs; [|exact IH].
    cbn [List.filter]. rewrite Hs. cbn [negb]. exact IH. }
rewrite Hword in Hvis. split.
- intros H. rewrite H in Hvis. symmetry. exact Hvis.
- intros H. rewrite H in Hvis.
  pose proof (str_normalize_starts_clean T t) as Hstart.
  destruct (Str.normalize_text T t) as [|c l]; [reflexivity|].
  cbn [Str.starts_clean] in Hstart. cbn [List.filter] in Hvis.
  rewrite Hstart in Hvis. discriminate Hvis.
Qed.

Lemma normalize_empty_iff_witness :
  Str.normalize_text ascii_tables (list_ascii_of_string "?!  ...") = []
  /\ Str.normalize_text ascii_tables (list_ascii_of_string "a_b") <> [].
Proof.
split.
- apply (normalize_empty_iff ascii_tables _ ascii_laws word_not_space).
  reflexivity.
- intros H.
  apply (normalize_empty_iff ascii_tables _ ascii_laws word_not_space) in H.
  discriminate H.
Defined.



(** The answers of the message handler are prepared by [Str.prepare] over
    the ASCII tables. *)
Lemma prepare_ascii_instance (a : string) :
  list_ascii_of_string (str_strip (str_lower a))
  = Str.prepare ascii_tables (list_ascii_of_string a).
Proof.
unfold str_strip, str_lower.
rewrite !list_ascii_of_string_of_list_ascii. reflexivity.
Qed.
